(** * hardhat-verify / hardhat-ledger: the verification tasks and the ledger cache

    A shallow embedding of

    - [packages/hardhat-verify/src/internal/tasks/etherscan.ts]
      (the Etherscan verification subtasks),
    - [packages/hardhat-verify/src/index.ts] (the [verify] meta-task),
    - [packages/hardhat-ledger/src/internal/cache.ts] (the accounts cache).

    The TypeScript code is [async] throughout: every action awaits
    collaborators (the chain provider, the block explorer, the artifacts
    store, the compile tasks, the file system) and may reject.  An action is
    embedded as a function from the state of the outside world to an outcome,
    the next state of the world and the list of observable events (calls to
    collaborators, console output, pauses) in the order they happen. *)

From stdpp Require Import base strings list gmap.

Set Default Proof Using "Type".

(** * Outcomes of asynchronous actions *)

(** An exception raised inside a collaborator, whatever its class. *)
Definition Foreign := string.

(** The error classes of [../errors] that the embedded code throws itself,
    with the constructor arguments it passes. *)
Inductive Error :=
| MissingAddressError
| InvalidAddressError (address : string)
| InvalidContractNameError (contractFQN : string)
| CompilerVersionsMismatchError
    (configCompilerVersions : list string)
    (inferredCompilerVersion : string)
    (network : string)
| ContractNotFoundError (contractFQN : string)
| BuildInfoNotFoundError (contractFQN : string)
| BuildInfoCompilerVersionMismatchError
    (contractFQN : string)
    (compilerVersion : string)
    (isVersionRange : bool)
    (buildInfoCompilerVersion : string)
    (network : string)
| DeployedBytecodeMismatchError (network : string) (contractFQN : string)
| UnexpectedNumberOfFilesError
| VerificationAPIUnexpectedMessageError (message : string)
| ContractVerificationFailedError
    (message : string)
    (undetectableLibraries : list string)
| Thrown (e : Foreign).

(** A promise resolves, rejects, or the process is gone ([process.exit]). *)
Inductive Outcome (A : Type) :=
| Resolved (a : A)
| Rejected (e : Error)
| Exited (code : N).
Arguments Resolved {A} a.
Arguments Rejected {A} e.
Arguments Exited {A} code.

(** What a collaborator answers: a value or an exception of its own. *)
Definition Answer (A : Type) : Type := A + Foreign.

Section AsyncMonad.
Context {E W : Type}.

(** [E] are the observable events, [W] the states of the outside world. *)
Definition M (A : Type) : Type := W -> Outcome A * W * list E.

Definition ret {A} (a : A) : M A := fun w => (Resolved a, w, []).

Definition throw {A} (e : Error) : M A := fun w => (Rejected e, w, []).


Definition bind {A B} (m : M A) (k : A -> M B) : M B :=
  fun w =>
    match m w with
    | (Resolved a, w1, t1) =>
        match k a w1 with
        | (r, w2, t2) => (r, w2, t1 ++ t2)
        end
    | (Rejected e, w1, t1) => (Rejected e, w1, t1)
    | (Exited c, w1, t1) => (Exited c, w1, t1)
    end.

(** [try { m } catch (error) { h error }]: only rejections are caught. *)
Definition try_catch {A} (m : M A) (h : Error -> M A) : M A :=
  fun w =>
    match m w with
    | (Rejected e, w1, t1) =>
        match h e w1 with
        | (r, w2, t2) => (r, w2, t1 ++ t2)
        end
    | other => other
    end.

(** An event that cannot fail (console output, a pause). *)
Definition emit (ev : E) : M unit := fun w => (Resolved tt, w, [ev]).

(** An awaited call to a collaborator, recorded as event [ev]. *)
Definition await {A} (ev : E) (f : W -> Answer A * W) : M A :=
  fun w =>
    match f w with
    | (inl a, w1) => (Resolved a, w1, [ev])
    | (inr x, w1) => (Rejected (Thrown x), w1, [ev])
    end.

(** A synchronous check against the world ([fs.accessSync] and the like),
    made before an action starts: it changes nothing and is no event of the
    action; its exception rejects the run. *)
Definition check (f : W -> Answer unit) : M unit :=
  fun w =>
    match f w with
    | inl _ => (Resolved tt, w, [])
    | inr x => (Rejected (Thrown x), w, [])
    end.

Definition outcome {A} (r : Outcome A * W * list E) : Outcome A := r.1.1.
Definition world {A} (r : Outcome A * W * list E) : W := r.1.2.
Definition trace {A} (r : Outcome A * W * list E) : list E := r.2.

(** The rest of a run after the events [t]. *)
Definition after {A} (t : list E) (r : Outcome A * W * list E)
  : Outcome A * W * list E :=
  (r.1.1, r.1.2, t ++ r.2).

(** [m] never rejects with an error of the class [P]. *)
Definition never_throws {A} (P : Error -> bool) (m : M A) : Prop :=
  forall w e, outcome (m w) = Rejected e -> P e = false.

(** [m] never ends the process. *)
Definition never_exits {A} (m : M A) : Prop :=
  forall w code, outcome (m w) <> Exited code.
End AsyncMonad.

Arguments M : clear implicits.

Notation "'let*' x ':=' m 'in' k" := (bind m (fun x => k))
  (at level 10, x name, m at level 100, k at level 200).
Notation "'do*' m 'in' k" := (bind m (fun _ => k))
  (at level 10, m at level 100, k at level 200).

(** * Data of the Etherscan verification subtasks *)

(** [LibraryToAddress]: library name to address, as the user supplies it. *)
Definition LibraryToAddress := list (string * string).

(** [SourceToLibraryToAddress]: the shape of the compiler's [libraries]
    setting. *)
Definition SourceToLibraryToAddress := list (string * list (string * string)).

(** [CompilerInput]; [settings.libraries] is the only field written here,
    the remaining settings are carried as they are. *)
Record CompilerSettings := {
  otherSettings : string;
  settings_libraries : option SourceToLibraryToAddress;
}.

Record CompilerInput := {
  language : string;
  sources : list (string * string);
  settings : CompilerSettings;
}.

(** [compilerInput.settings.libraries = l].  The assignment mutates the
    object it is given: the minimal input is a deep copy that nothing else
    holds, and the full input is not read again after its attempt, so the
    updated value is all that is observable. *)
Definition set_libraries (l : SourceToLibraryToAddress) (c : CompilerInput)
  : CompilerInput :=
  {| language := language c;
     sources := sources c;
     settings := {| otherSettings := otherSettings (settings c);
                    settings_libraries := Some l |} |}.

(** [lodash.clonedeep]: a structurally equal value in a fresh object; values
    of the embedding carry no identity, so the copy is the value itself. *)
Definition cloneDeep (c : CompilerInput) : CompilerInput := c.

(** [ContractInformation & LibraryInformation] *)
Record ContractInformation := {
  ci_compilerInput : CompilerInput;
  ci_solcLongVersion : string;
  ci_sourceName : string;
  ci_contractName : string;
  ci_abi : string;
  ci_deployedBytecode : string;
}.

Record LibraryInformation := {
  li_libraries : SourceToLibraryToAddress;
  li_undetectableLibraries : list string;
}.

(** [{ ...contractInformation, ...libraryInformation }] *)
Record ExtendedContractInformation := {
  compilerInput : CompilerInput;
  solcLongVersion : string;
  sourceName : string;
  contractName : string;
  contractOutput_abi : string;
  deployedBytecode : string;
  libraries : SourceToLibraryToAddress;
  undetectableLibraries : list string;
}.

Definition spread (c : ContractInformation) (l : LibraryInformation)
  : ExtendedContractInformation :=
  {| compilerInput := ci_compilerInput c;
     solcLongVersion := ci_solcLongVersion c;
     sourceName := ci_sourceName c;
     contractName := ci_contractName c;
     contractOutput_abi := ci_abi c;
     deployedBytecode := ci_deployedBytecode c;
     libraries := li_libraries l;
     undetectableLibraries := li_undetectableLibraries l |}.

(** [VerifyTaskArgs] of index.ts.  [libraries] is declared a string but is
    inspected with [typeof]: a path, an object or nothing. *)
Inductive LibrariesParam :=
| LibrariesUndefined
| LibrariesModule (path : string)
| LibrariesObject (l : LibraryToAddress).

Record VerifyTaskArgs := {
  ta_address : option string;
  ta_constructorArgsParams : list string;
  ta_constructorArgs : option string;
  ta_libraries : LibrariesParam;
  ta_contract : option string;
  ta_listNetworks : bool;
}.

(** [VerificationArgs]: the parsed arguments. *)
Record VerificationArgs := {
  va_address : string;
  va_constructorArgs : list string;
  va_libraries : LibraryToAddress;
  va_contractFQN : option string;
}.

(** [VerificationResponse] *)
Record VerificationResponse := {
  success : bool;
  message : string;
}.

(** The [Bytecode] object of [../solc/bytecode], seen through the methods
    called on it; [normalized] is its comparison form (spec, section 3). *)
Record Bytecode := {
  getVersion : string;
  isOvm : bool;
  hasVersionRange : bool;
  getMatchingVersions : list string -> list string;
  normalized : string;
}.

(** What the artifacts store exposes for one fully qualified name (spec,
    section 6): compiler versions, the compiler input of the build, and the
    named contract's output. *)
Record BuildInfo := {
  solcVersion : string;
  bi_solcLongVersion : string;
  input : CompilerInput;
  output_sourceName : string;
  output_contractName : string;
  output_abi : string;
  output_deployedBytecode : string;
}.

(** The [Etherscan] instance, [Etherscan.fromChainConfig(apiKey, chainConfig)]. *)
Record Etherscan := fromChainConfig {
  apiKey : string;
  chainConfig : string;
}.

(** [EtherscanResponse], seen through the members read here. *)
Record EtherscanResponse := {
  response_message : string;
  isFailure : bool;
  isSuccess : bool;
}.

Record ResolvedFile := {
  file_sourceName : string;
  file_content : string;
}.

Record DependencyGraph := {
  getResolvedFiles : list ResolvedFile;
}.

Definition CompilationJob := list ResolvedFile.

(** The parts of the Hardhat runtime environment the subtasks read. *)
Record Environment := {
  config_etherscan_apiKey : string;
  config_etherscan_customChains : list string;
  config_solidity : string;
  network_name : string;
  network_provider : string;
}.

(** * Observable events *)

Inductive Event :=
| ConsoleLog (text : string)
| ConsoleWarn (text : string)
| Sleep (ms : N)
| ResolveConstructorArguments (params : list string) (module : option string)
| ResolveLibraries (module : option string)
| GetCurrentChainConfig (networkName provider : string) (customChains : list string)
| IsVerified (e : Etherscan) (address : string)
| GetCompilerVersions (solidity : string)
| GetDeployedContractBytecode (address provider networkName : string)
| ArtifactExists (contractFQN : string)
| GetBuildInfo (contractFQN : string)
| ExtractInferredContractInformation (versions : list string) (b : Bytecode)
| GetLibraryInformation (c : ContractInformation) (l : LibraryToAddress)
| GetDependencyGraph (sourceNames : list string)
| GetCompilationJobForFile (g : DependencyGraph) (file : ResolvedFile)
| GetCompilerInput (job : CompilationJob)
| EncodeArguments (abi sourceName contractName : string) (args : list string)
| Verify (e : Etherscan)
    (address sourceCode contractName compilerVersion constructorArguments : string)
| GetVerificationStatus (e : Etherscan) (guid : string)
| RunTask (name : string) (args : VerifyTaskArgs)
| PrintSupportedNetworks (customChains : list string)
| PrintVerificationErrors (errors : gmap string Error).

(** A request to the chain (a call that is handed [network.provider]) or to
    the block explorer (a method of the [Etherscan] instance that awaits). *)
Definition is_network_request (ev : Event) : bool :=
  match ev with
  | GetCurrentChainConfig _ _ _
  | IsVerified _ _
  | GetDeployedContractBytecode _ _ _
  | Verify _ _ _ _ _ _
  | GetVerificationStatus _ _ => true
  | _ => false
  end.

Definition is_submission (ev : Event) : bool :=
  match ev with Verify _ _ _ _ _ _ => true | _ => false end.

Definition is_status_check (ev : Event) : bool :=
  match ev with GetVerificationStatus _ _ => true | _ => false end.

(** * Collaborators *)

(** Everything the subtasks call that lives outside etherscan.ts.  An
    awaited call takes the state of the world and answers with a value or an
    exception; synchronous helpers are functions. *)
Class Collaborators (W : Type) := {
  (* @ethersproject/address, hardhat/utils/contract-names *)
  isAddress : string -> bool;
  isFullyQualifiedName : string -> bool;
  JSON_stringify : CompilerInput -> string;
  (* ../utilities *)
  resolveConstructorArguments :
    list string -> option string -> W -> Answer (list string) * W;
  resolveLibraries : option string -> W -> Answer LibraryToAddress * W;
  getCompilerVersions : string -> W -> Answer (list string) * W;
  encodeArguments :
    string -> string -> string -> list string -> W -> Answer string * W;
  (* ../etherscan *)
  getCurrentChainConfig :
    string -> string -> list string -> W -> Answer string * W;
  isVerified : Etherscan -> string -> W -> Answer bool * W;
  getContractUrl : Etherscan -> string -> string;
  verify :
    Etherscan -> string -> string -> string -> string -> string ->
    W -> Answer EtherscanResponse * W;
  getVerificationStatus :
    Etherscan -> string -> W -> Answer EtherscanResponse * W;
  (* ../solc/bytecode *)
  getDeployedContractBytecode :
    string -> string -> string -> W -> Answer Bytecode * W;
  normalize : string -> string;
  (* the artifacts store and ../solc/artifacts *)
  artifactExists : string -> W -> Answer bool * W;
  getBuildInfo : string -> W -> Answer (option BuildInfo) * W;
  extractInferredContractInformation :
    list string -> Bytecode -> W -> Answer ContractInformation * W;
  getLibraryInformation :
    ContractInformation -> LibraryToAddress -> W -> Answer LibraryInformation * W;
  (* the compile tasks of hardhat core *)
  getDependencyGraph : list string -> W -> Answer DependencyGraph * W;
  getCompilationJobForFile :
    DependencyGraph -> ResolvedFile -> W -> Answer CompilationJob * W;
  getCompilerInput : CompilationJob -> W -> Answer CompilerInput * W;
  (* the task runner of hardhat core: the HardhatError for a parameter
     declared without default and passed no value (HH306), and the
     validation of a value of the parameter type [types.inputFile] *)
  MISSING_TASK_ARGUMENT : string -> Foreign;
  inputFile_validate : string -> string -> W -> Answer unit;
}.

(** [array.includes(x)] on an array of strings *)
Definition includes (l : list string) (x : string) : bool :=
  existsb (String.eqb x) l.

(** * etherscan.ts *)

Section Etherscan.
Context {W : Type} {C : Collaborators W}.
Variable hre : Environment.

Local Abbreviation Task := (M Event W).

(** Modelled from the spec: [extractMatchingContractInformation] of
    [../solc/artifacts] is not among the sources.  Section 4.3, named mode:
    "Normalize its compiled bytecode and compare to the deployed normalized
    bytecode; on mismatch, fail"; the match carries the fields of
    ContractInformation (section 3), and no match is [null]. *)
Definition extractMatchingContractInformation
    (contractFQN : string) (buildInfo : BuildInfo) (bytecode : Bytecode)
  : option ContractInformation :=
  if String.eqb (normalize (output_deployedBytecode buildInfo))
                (normalized bytecode)
  then Some {| ci_compilerInput := input buildInfo;
               ci_solcLongVersion := bi_solcLongVersion buildInfo;
               ci_sourceName := output_sourceName buildInfo;
               ci_contractName := output_contractName buildInfo;
               ci_abi := output_abi buildInfo;
               ci_deployedBytecode := output_deployedBytecode buildInfo |}
  else None.

(** A subtask is its declaration and its action.  Hardhat's
    [run(name, taskArguments)] goes through the declared parameters before
    it calls the action (hardhat core, not among the sources; the two
    failures it can report here are collaborators).  The parameters are
    typed in [VerifyTaskArgs], so the declarations that can fail are these
    two.

    [.addParam(name)] declares a parameter without default value: a call
    that passes no value for it is rejected with MISSING_TASK_ARGUMENT. *)
Definition addParam {A} (name : string) (value : option A) : Task unit :=
  match value with
  | Some _ => ret tt
  | None => throw (Thrown (MISSING_TASK_ARGUMENT name))
  end.

(** [.addOptionalParam(name, undefined, undefined, types.inputFile)]: a
    value that is passed is validated as a readable file; no value is
    fine. *)
Definition addOptionalParam_inputFile (name : string) (value : option string)
  : Task unit :=
  match value with
  | Some value => check (inputFile_validate name value)
  | None => ret tt
  end.

(** [subtask(TASK_VERIFY_ETHERSCAN_RESOLVE_ARGUMENTS)] *)
Definition TASK_VERIFY_ETHERSCAN_RESOLVE_ARGUMENTS (taskArgs : VerifyTaskArgs)
  : Task VerificationArgs :=
  do* addOptionalParam_inputFile "constructorArgs"
        (ta_constructorArgs taskArgs) in
  match ta_address taskArgs with
  | None => throw MissingAddressError
  | Some address =>
      if negb (isAddress address) then throw (InvalidAddressError address)
      else
        let contract := ta_contract taskArgs in
        let resolve :=
          let* constructorArgs :=
            await (ResolveConstructorArguments
                     (ta_constructorArgsParams taskArgs)
                     (ta_constructorArgs taskArgs))
                  (resolveConstructorArguments
                     (ta_constructorArgsParams taskArgs)
                     (ta_constructorArgs taskArgs)) in
          let* libraries :=
            match ta_libraries taskArgs with
            | LibrariesObject librariesModule => ret librariesModule
            | LibrariesModule librariesModule =>
                await (ResolveLibraries (Some librariesModule))
                      (resolveLibraries (Some librariesModule))
            | LibrariesUndefined =>
                await (ResolveLibraries None) (resolveLibraries None)
            end in
          ret {| va_address := address;
                 va_constructorArgs := constructorArgs;
                 va_libraries := libraries;
                 va_contractFQN := contract |} in
        match contract with
        | Some c =>
            if negb (isFullyQualifiedName c)
            then throw (InvalidContractNameError c)
            else resolve
        | None => resolve
        end
  end.

(** [subtask(TASK_VERIFY_ETHERSCAN_GET_CONTRACT_INFORMATION)] *)
Definition TASK_VERIFY_ETHERSCAN_GET_CONTRACT_INFORMATION
    (contractFQN : option string) (deployedBytecode : Bytecode)
    (matchingCompilerVersions : list string) (libraries : LibraryToAddress)
  : Task ExtendedContractInformation :=
  let* contractInformation :=
    match contractFQN with
    | Some contractFQN =>
        let* artifactExists :=
          await (ArtifactExists contractFQN) (artifactExists contractFQN) in
        if negb artifactExists then throw (ContractNotFoundError contractFQN)
        else
          let* buildInfo :=
            await (GetBuildInfo contractFQN) (getBuildInfo contractFQN) in
          match buildInfo with
          | None => throw (BuildInfoNotFoundError contractFQN)
          | Some buildInfo =>
              if negb (includes matchingCompilerVersions (solcVersion buildInfo))
                 && negb (isOvm deployedBytecode)
              then throw (BuildInfoCompilerVersionMismatchError
                            contractFQN
                            (getVersion deployedBytecode)
                            (hasVersionRange deployedBytecode)
                            (solcVersion buildInfo)
                            (network_name hre))
              else
                match extractMatchingContractInformation
                        contractFQN buildInfo deployedBytecode with
                | None =>
                    throw (DeployedBytecodeMismatchError
                             (network_name hre) contractFQN)
                | Some contractInformation => ret contractInformation
                end
          end
    | None =>
        await (ExtractInferredContractInformation
                 matchingCompilerVersions deployedBytecode)
              (extractInferredContractInformation
                 matchingCompilerVersions deployedBytecode)
    end in
  let* libraryInformation :=
    await (GetLibraryInformation contractInformation libraries)
          (getLibraryInformation contractInformation libraries) in
  ret (spread contractInformation libraryInformation).

(** [subtask(TASK_VERIFY_ETHERSCAN_GET_MINIMAL_INPUT)].  After the guard
    [resolvedFiles.length !== 1] the list has one element,
    [resolvedFiles[0]]. *)
Definition TASK_VERIFY_ETHERSCAN_GET_MINIMAL_INPUT (sourceName : string)
  : Task CompilerInput :=
  let* dependencyGraph :=
    await (GetDependencyGraph [sourceName]) (getDependencyGraph [sourceName]) in
  let resolvedFiles :=
    filter (fun resolvedFile => file_sourceName resolvedFile = sourceName)
           (getResolvedFiles dependencyGraph) in
  match resolvedFiles with
  | [file] =>
      let* compilationJob :=
        await (GetCompilationJobForFile dependencyGraph file)
              (getCompilationJobForFile dependencyGraph file) in
      let* minimalInput :=
        await (GetCompilerInput compilationJob)
              (getCompilerInput compilationJob) in
      ret (cloneDeep minimalInput)
  | _ => throw UnexpectedNumberOfFilesError
  end.

Definition submitted_message
    (contractInformation : ExtendedContractInformation) (address : string)
  : string :=
  "Successfully submitted source code for contract
" +:+ sourceName contractInformation +:+ ":" +:+
  contractName contractInformation +:+ " at " +:+ address +:+ "
for verification on the block explorer. Waiting for verification result...
".

Definition verified_message
    (contractInformation : ExtendedContractInformation) (contractURL : string)
  : string :=
  "Successfully verified contract " +:+ contractName contractInformation +:+
  " on the block explorer.
" +:+ contractURL +:+ "
".

(** [subtask(TASK_VERIFY_ETHERSCAN_ATTEMPT_VERIFICATION)] *)
Definition TASK_VERIFY_ETHERSCAN_ATTEMPT_VERIFICATION
    (address : string) (compilerInput : CompilerInput)
    (contractInformation : ExtendedContractInformation)
    (verificationInterface : Etherscan)
    (encodedConstructorArguments : string)
  : Task VerificationResponse :=
  let compilerInput :=
    set_libraries (libraries contractInformation) compilerInput in
  let sourceCode := JSON_stringify compilerInput in
  let name :=
    sourceName contractInformation +:+ ":" +:+
    contractName contractInformation in
  let version := "v" +:+ solcLongVersion contractInformation in
  let* response :=
    await (Verify verificationInterface address sourceCode name version
             encodedConstructorArguments)
          (verify verificationInterface address sourceCode name version
             encodedConstructorArguments) in
  let guid := response_message response in
  do* emit (ConsoleLog (submitted_message contractInformation address)) in
  do* emit (Sleep 700) in
  let* verificationStatus :=
    await (GetVerificationStatus verificationInterface guid)
          (getVerificationStatus verificationInterface guid) in
  if negb (isFailure verificationStatus || isSuccess verificationStatus)
  then throw (VerificationAPIUnexpectedMessageError
                (response_message verificationStatus))
  else
    do* (if isSuccess verificationStatus
         then emit (ConsoleLog
                      (verified_message contractInformation
                         (getContractUrl verificationInterface address)))
         else ret tt) in
    ret {| success := isSuccess verificationStatus;
           message := response_message verificationStatus |}.

Definition already_verified_message (address contractURL : string) : string :=
  "The contract " +:+ address +:+ " has already been verified.
" +:+ contractURL.

Definition fallback_message
    (contractInformation : ExtendedContractInformation) : string :=
  "We tried verifying your contract " +:+ contractName contractInformation +:+
  " without including any unrelated one, but it failed.
Trying again with the full solc input used to compile and deploy it.
This means that unrelated contracts may be displayed on Etherscan...
".

(** [subtask(TASK_VERIFY_ETHERSCAN)] *)
Definition TASK_VERIFY_ETHERSCAN (taskArgs : VerifyTaskArgs) : Task unit :=
  do* addParam "address" (ta_address taskArgs) in
  let* args := TASK_VERIFY_ETHERSCAN_RESOLVE_ARGUMENTS taskArgs in
  let address := va_address args in
  let* chainConfig :=
    await (GetCurrentChainConfig (network_name hre) (network_provider hre)
             (config_etherscan_customChains hre))
          (getCurrentChainConfig (network_name hre) (network_provider hre)
             (config_etherscan_customChains hre)) in
  let etherscan := fromChainConfig (config_etherscan_apiKey hre) chainConfig in
  let* isVerified :=
    await (IsVerified etherscan address) (isVerified etherscan address) in
  if isVerified
  then
    emit (ConsoleLog (already_verified_message address
                        (getContractUrl etherscan address)))
  else
    let* configCompilerVersions :=
      await (GetCompilerVersions (config_solidity hre))
            (getCompilerVersions (config_solidity hre)) in
    let* deployedBytecode :=
      await (GetDeployedContractBytecode address (network_provider hre)
               (network_name hre))
            (getDeployedContractBytecode address (network_provider hre)
               (network_name hre)) in
    let matchingCompilerVersions :=
      getMatchingVersions deployedBytecode configCompilerVersions in
    if Nat.eqb (length matchingCompilerVersions) 0
       && negb (isOvm deployedBytecode)
    then throw (CompilerVersionsMismatchError
                  configCompilerVersions
                  (getVersion deployedBytecode)
                  (network_name hre))
    else
      let* contractInformation :=
        TASK_VERIFY_ETHERSCAN_GET_CONTRACT_INFORMATION
          (va_contractFQN args) deployedBytecode matchingCompilerVersions
          (va_libraries args) in
      let* minimalInput :=
        TASK_VERIFY_ETHERSCAN_GET_MINIMAL_INPUT
          (sourceName contractInformation) in
      let* encodedConstructorArguments :=
        await (EncodeArguments
                 (contractOutput_abi contractInformation)
                 (sourceName contractInformation)
                 (contractName contractInformation)
                 (va_constructorArgs args))
              (encodeArguments
                 (contractOutput_abi contractInformation)
                 (sourceName contractInformation)
                 (contractName contractInformation)
                 (va_constructorArgs args)) in
      let* minimalInputVerification :=
        TASK_VERIFY_ETHERSCAN_ATTEMPT_VERIFICATION
          address minimalInput contractInformation etherscan
          encodedConstructorArguments in
      if success minimalInputVerification then ret tt
      else
        do* emit (ConsoleLog (fallback_message contractInformation)) in
        let* fullCompilerInputVerification :=
          TASK_VERIFY_ETHERSCAN_ATTEMPT_VERIFICATION
            address (compilerInput contractInformation) contractInformation
            etherscan encodedConstructorArguments in
        if success fullCompilerInputVerification then ret tt
        else throw (ContractVerificationFailedError
                      (message fullCompilerInputVerification)
                      (undetectableLibraries contractInformation)).
End Etherscan.

(** * index.ts: the [verify] meta-task *)

(** The task names of [./internal/task-names] that end up in the list of
    verification subtasks. *)
Record TaskNames := {
  NAME_VERIFY_ETHERSCAN : string;
  NAME_VERIFY_SOURCIFY : string;
  NAME_VERIFY_SOURCIFY_DISABLED_WARNING : string;
}.

(** [config.etherscan.enabled], [config.sourcify.enabled] and
    [userConfig.sourcify?.enabled]. *)
Record VerifyConfig := {
  config_etherscan_enabled : bool;
  config_sourcify_enabled : bool;
  userConfig_sourcify_enabled : option bool;
}.

Definition no_service_warning : string :=
  "WARNING: No verification services are enabled. Please enable at least one verification service in your configuration.".

Section Index.
Context {W : Type}.
Variable names : TaskNames.
Variable hre : Environment.
Variable config : VerifyConfig.

Local Abbreviation Task := (M Event W).

(** Hardhat's [run(name, taskArgs)] for a verification subtask: the name
    is data, so the action behind it is whatever is registered. *)
Variable run : string -> VerifyTaskArgs -> Task unit.


(** [subtask(TASK_VERIFY_GET_VERIFICATION_SUBTASKS)] *)
Definition TASK_VERIFY_GET_VERIFICATION_SUBTASKS : Task (list string) :=
  let verificationSubtasks := [] in
  let verificationSubtasks :=
    if config_etherscan_enabled config
    then verificationSubtasks ++ [NAME_VERIFY_ETHERSCAN names]
    else verificationSubtasks in
  let verificationSubtasks :=
    if config_sourcify_enabled config
    then verificationSubtasks ++ [NAME_VERIFY_SOURCIFY names]
    else
      match userConfig_sourcify_enabled config with
      | None | Some false =>
          verificationSubtasks ++ [NAME_VERIFY_SOURCIFY_DISABLED_WARNING names]
      | Some true => verificationSubtasks
      end in
  do* (if negb (config_etherscan_enabled config)
          && negb (config_sourcify_enabled config)
       then emit (ConsoleWarn no_service_warning)
       else ret tt) in
  ret verificationSubtasks.

(** The [for (const verificationSubtask of verificationSubtasks)] loop of
    [TASK_VERIFY], on the pair of [errors] and [hasErrors]. *)
Fixpoint for_of_verificationSubtasks
    (taskArgs : VerifyTaskArgs) (verificationSubtasks : list string)
    (errors : gmap string Error) (hasErrors : bool)
  : Task (gmap string Error * bool) :=
  match verificationSubtasks with
  | [] => ret (errors, hasErrors)
  | verificationSubtask :: rest =>
      let* state :=
        try_catch
          (do* emit (RunTask verificationSubtask taskArgs) in
           do* run verificationSubtask taskArgs in
           ret (errors, hasErrors))
          (fun error => ret (<[verificationSubtask := error]> errors, true)) in
      for_of_verificationSubtasks taskArgs rest state.1 state.2
  end.


(** The reading of "every subtask is run exactly once, in order": each name
    of the list is started in turn in the world its predecessor left,
    whatever the predecessors' outcomes, and its outcome is noted. *)
Fixpoint run_each_once
    (taskArgs : VerifyTaskArgs) (verificationSubtasks : list string) (w : W)
  : list (string * Outcome unit) * W * list Event :=
  match verificationSubtasks with
  | [] => ([], w, [])
  | verificationSubtask :: rest =>
      match run verificationSubtask taskArgs w with
      | (r, w1, t1) =>
          match run_each_once taskArgs rest w1 with
          | (rs, w2, t2) =>
              ((verificationSubtask, r) :: rs, w2,
               RunTask verificationSubtask taskArgs :: t1 ++ t2)
          end
      end
  end.

(** The errors of the noted outcomes, keyed by subtask. *)
Fixpoint collected_errors
    (results : list (string * Outcome unit)) (errors : gmap string Error)
  : gmap string Error :=
  match results with
  | [] => errors
  | (name, Rejected e) :: rest => collected_errors rest (<[name := e]> errors)
  | _ :: rest => collected_errors rest errors
  end.

Definition threw (result : string * Outcome unit) : bool :=
  match result.2 with Rejected _ => true | _ => false end.

(** No subtask ends the process by itself. *)
Definition subtasks_settle (taskArgs : VerifyTaskArgs) : Prop :=
  forall name w code, outcome (run name taskArgs w) <> Exited code.
End Index.

(** * cache.ts: the ledger accounts cache *)

(** [CacheableJson = Record<string, string>] *)
Definition CacheableJson := gmap string string.

(** The object returned by [envPaths(name)]. *)
Record Paths := {
  paths_data : string;
  paths_config : string;
  paths_cache : string;
  paths_log : string;
  paths_temp : string;
}.

Inductive FsEvent :=
| EnsureDir (dir : string)
| Access (file : string)
| ReadJSON (file : string)
| WriteJSON (file : string) (json : CacheableJson).

(** [fs-extra], [path] and [env-paths] over the states [W] of the file
    system. *)
Class FileSystem (W : Type) := {
  envPaths : string -> Paths;
  path_join : string -> string -> string;
  fs_ensureDir : string -> W -> Answer unit * W;
  fs_access : string -> W -> Answer unit * W;
  fs_readJSON : string -> W -> Answer CacheableJson * W;
  fs_writeJSON : string -> CacheableJson -> W -> Answer unit * W;
}.

Definition CACHE_FILE_NAME : string := "accounts.json".

Section LedgerCache.
Context {W : Type} {F : FileSystem W}.

Local Abbreviation Task := (M FsEvent W).

Definition generatePaths (packageName : string) : Task Paths :=
  ret (envPaths packageName).

Definition getCacheDir : Task string :=
  let* paths := generatePaths "hardhat" in
  let cache := paths_cache paths in
  do* await (EnsureDir cache) (fs_ensureDir cache) in
  ret cache.

Definition getLedgerCacheDir : Task string :=
  let* cache := getCacheDir in
  let compilersCache := path_join cache "ledger" in
  do* await (EnsureDir compilersCache) (fs_ensureDir compilersCache) in
  ret compilersCache.

Definition getLedgerCacheFile (fileName : string) : Task string :=
  let* ledgerCacheDir := getLedgerCacheDir in
  ret (path_join ledgerCacheDir fileName).

(** [write(json)] *)
Definition write (json : CacheableJson) : Task unit :=
  let* ledgerCacheFile := getLedgerCacheFile CACHE_FILE_NAME in
  await (WriteJSON ledgerCacheFile json) (fs_writeJSON ledgerCacheFile json).

(** [read()]: [None] is [undefined], the value of a function body that
    ends without [return]. *)
Definition read : Task (option CacheableJson) :=
  let* ledgerCacheFile := getLedgerCacheFile CACHE_FILE_NAME in
  try_catch
    (do* await (Access ledgerCacheFile) (fs_access ledgerCacheFile) in
     let* file :=
       await (ReadJSON ledgerCacheFile) (fs_readJSON ledgerCacheFile) in
     ret (Some file))
    (fun error => ret None).
End LedgerCache.

(** * Concrete worlds *)

(** A file system as a finite map from paths to nodes.  A regular file is
    readable or not and holds JSON or not. *)
Inductive Node :=
| Directory
| RegularFile (readable : bool) (parsed : option CacheableJson).

Definition Disk := gmap string Node.

Definition disk_ensureDir (dir : string) (d : Disk) : Answer unit * Disk :=
  match d !! dir with
  | Some Directory => (inl tt, d)
  | Some (RegularFile _ _) => (inr "EEXIST: file already exists", d)
  | None => (inl tt, <[dir := Directory]> d)
  end.

Definition disk_access (file : string) (d : Disk) : Answer unit * Disk :=
  match d !! file with
  | Some _ => (inl tt, d)
  | None => (inr "ENOENT: no such file or directory", d)
  end.

Definition disk_readJSON (file : string) (d : Disk)
  : Answer CacheableJson * Disk :=
  match d !! file with
  | Some (RegularFile true (Some json)) => (inl json, d)
  | Some (RegularFile true None) => (inr "SyntaxError: Unexpected token", d)
  | Some (RegularFile false _) => (inr "EACCES: permission denied", d)
  | Some Directory => (inr "EISDIR: illegal operation on a directory", d)
  | None => (inr "ENOENT: no such file or directory", d)
  end.

Definition disk_writeJSON (file : string) (json : CacheableJson) (d : Disk)
  : Answer unit * Disk :=
  match d !! file with
  | Some Directory => (inr "EISDIR: illegal operation on a directory", d)
  | Some (RegularFile false _) => (inr "EACCES: permission denied", d)
  | _ => (inl tt, <[file := RegularFile true (Some json)]> d)
  end.

#[export] Instance disk_FileSystem : FileSystem Disk := {|
  envPaths name :=
    {| paths_data := "/home/user/.local/share/" +:+ name +:+ "-nodejs";
       paths_config := "/home/user/.config/" +:+ name +:+ "-nodejs";
       paths_cache := "/home/user/.cache/" +:+ name +:+ "-nodejs";
       paths_log := "/home/user/.local/state/" +:+ name +:+ "-nodejs";
       paths_temp := "/tmp/user/" +:+ name +:+ "-nodejs" |};
  path_join a b := a +:+ "/" +:+ b;
  fs_ensureDir := disk_ensureDir;
  fs_access := disk_access;
  fs_readJSON := disk_readJSON;
  fs_writeJSON := disk_writeJSON;
|}.

(** The cache directory's path is taken by a regular file. *)
Definition disk_blocked : Disk :=
  {[ "/home/user/.cache/hardhat-nodejs" := RegularFile true None ]}.

Definition accounts : CacheableJson :=
  {[ "0xa809931e3b38059adae9bc5455bc567d0509ab92" := "m/44'/60'/0'/0/0" ]}.

(** A cache written by an earlier session. *)
Definition disk_cached : Disk :=
  {[ "/home/user/.cache/hardhat-nodejs/ledger/accounts.json" :=
       RegularFile true (Some accounts) ]}.

(** A scripted outside world for the verification subtasks: what the chain,
    the block explorer, the artifacts store and the compile tasks answer, and
    the module files that can be read.  The explorer's answers to status
    checks are consumed one per check. *)
Record Scenario := {
  sc_verified : bool;
  sc_configVersions : list string;
  sc_bytecode : Answer Bytecode;
  sc_artifacts : gmap string (option BuildInfo);
  sc_inferred : Answer ContractInformation;
  sc_undetectable : list string;
  sc_files : list ResolvedFile;
  sc_statuses : list EtherscanResponse;
  sc_modules : list string;
}.

Definition next_status (w : Scenario) : Answer EtherscanResponse * Scenario :=
  match sc_statuses w with
  | status :: rest =>
      (inl status,
       {| sc_verified := sc_verified w;
          sc_configVersions := sc_configVersions w;
          sc_bytecode := sc_bytecode w;
          sc_artifacts := sc_artifacts w;
          sc_inferred := sc_inferred w;
          sc_undetectable := sc_undetectable w;
          sc_files := sc_files w;
          sc_statuses := rest;
          sc_modules := sc_modules w |})
  | [] => (inr "ETIMEDOUT", w)
  end.

Definition has_colon (s : string) : bool :=
  existsb (Ascii.eqb (Ascii.ascii_of_nat 58)) (String.list_ascii_of_string s).

#[export] Instance scenario_Collaborators : Collaborators Scenario := {|
  isAddress a := String.prefix "0x" a && Nat.eqb (String.length a) 42;
  isFullyQualifiedName := has_colon;
  JSON_stringify c := String.concat "," (map fst (sources c));
  resolveConstructorArguments params _ w := (inl params, w);
  resolveLibraries _ w := (inl [], w);
  getCompilerVersions _ w := (inl (sc_configVersions w), w);
  encodeArguments _ _ _ args w := (inl (String.concat "" args), w);
  getCurrentChainConfig networkName _ _ w := (inl networkName, w);
  isVerified _ _ w := (inl (sc_verified w), w);
  getContractUrl _ address := "https://etherscan.io/address/" +:+ address +:+ "#code";
  verify _ _ _ _ _ _ w :=
    (inl {| response_message := "guid"; isFailure := false; isSuccess := false |}, w);
  getVerificationStatus _ _ := next_status;
  getDeployedContractBytecode _ _ _ w := (sc_bytecode w, w);
  normalize hex := hex;
  artifactExists contractFQN w :=
    (inl (bool_decide (is_Some (sc_artifacts w !! contractFQN))), w);
  getBuildInfo contractFQN w :=
    (inl (default None (sc_artifacts w !! contractFQN)), w);
  extractInferredContractInformation _ _ w := (sc_inferred w, w);
  getLibraryInformation _ _ w :=
    (inl {| li_libraries := [];
            li_undetectableLibraries := sc_undetectable w |}, w);
  getDependencyGraph _ w := (inl {| getResolvedFiles := sc_files w |}, w);
  getCompilationJobForFile _ file w := (inl [file], w);
  getCompilerInput job w :=
    (inl {| language := "Solidity";
            sources := map (fun f => (file_sourceName f, file_content f)) job;
            settings := {| otherSettings := "{}";
                           settings_libraries := None |} |}, w);
  MISSING_TASK_ARGUMENT param :=
    "HH306: The '" +:+ param +:+ "' parameter expects a value, but none was passed.";
  inputFile_validate name value w :=
    if includes (sc_modules w) value then inl tt
    else inr ("HH301: Invalid value " +:+ value +:+ " for argument " +:+
              name +:+ " of type inputFile");
|}.

Definition pass : EtherscanResponse :=
  {| response_message := "Pass - Verified"; isFailure := false; isSuccess := true |}.
Definition fail : EtherscanResponse :=
  {| response_message := "Fail - Unable to verify"; isFailure := true; isSuccess := false |}.
Definition unknown : EtherscanResponse :=
  {| response_message := "Unknown response"; isFailure := false; isSuccess := false |}.

Definition tokenInput : CompilerInput :=
  {| language := "Solidity";
     sources := [("contracts/Token.sol", "contract Token {}");
                 ("contracts/Other.sol", "contract Other {}")];
     settings := {| otherSettings := "{}"; settings_libraries := None |} |}.

Definition tokenBuild : BuildInfo :=
  {| solcVersion := "0.8.19";
     bi_solcLongVersion := "0.8.19+commit.7dd6d404";
     input := tokenInput;
     output_sourceName := "contracts/Token.sol";
     output_contractName := "Token";
     output_abi := "[]";
     output_deployedBytecode := "6080604052" |}.

Definition tokenBytecode : Bytecode :=
  {| getVersion := "0.8.19";
     isOvm := false;
     hasVersionRange := false;
     getMatchingVersions versions := List.filter (String.eqb "0.8.19") versions;
     normalized := "6080604052" |}.

Definition tokenInformation : ContractInformation :=
  {| ci_compilerInput := tokenInput;
     ci_solcLongVersion := "0.8.19+commit.7dd6d404";
     ci_sourceName := "contracts/Token.sol";
     ci_contractName := "Token";
     ci_abi := "[]";
     ci_deployedBytecode := "6080604052" |}.

Definition tokenExtended : ExtendedContractInformation :=
  spread tokenInformation
    {| li_libraries := [];
       li_undetectableLibraries := ["contracts/Lib.sol:Lib"] |}.

Definition explorer : Etherscan := fromChainConfig "KEY" "mainnet".

Definition tokenFile : ResolvedFile :=
  {| file_sourceName := "contracts/Token.sol";
     file_content := "contract Token {}" |}.

Definition otherFile : ResolvedFile :=
  {| file_sourceName := "contracts/Other.sol";
     file_content := "contract Other {}" |}.

Definition scenario (verified : bool) (versions : list string)
    (build : BuildInfo) (files : list ResolvedFile)
    (statuses : list EtherscanResponse) : Scenario :=
  {| sc_verified := verified;
     sc_configVersions := versions;
     sc_bytecode := inl tokenBytecode;
     sc_artifacts := {[ "contracts/Token.sol:Token" := Some build ]};
     sc_inferred := inl tokenInformation;
     sc_undetectable := ["contracts/Lib.sol:Lib"];
     sc_files := files;
     sc_statuses := statuses;
     sc_modules := ["scripts/arguments.js"] |}.

(** A project with one contract, deployed and not yet verified; the
    explorer answers the status checks with [statuses]. *)
Definition project (statuses : list EtherscanResponse) : Scenario :=
  scenario false ["0.8.19"; "0.8.20"] tokenBuild [tokenFile] statuses.

(** The same contract, verified earlier. *)
Definition verifiedProject : Scenario :=
  scenario true ["0.8.19"; "0.8.20"] tokenBuild [tokenFile] [].

(** The dependency graph comes back without the contract's file. *)
Definition staleProject : Scenario :=
  scenario false ["0.8.19"; "0.8.20"] tokenBuild [otherFile] [fail; pass].

(** The project is configured for another compiler. *)
Definition upgradedProject : Scenario :=
  scenario false ["0.8.20"] tokenBuild [tokenFile] [].

(** The contract was changed and rebuilt after the deployment. *)
Definition changedBuild : BuildInfo :=
  {| solcVersion := "0.8.19";
     bi_solcLongVersion := "0.8.19+commit.7dd6d404";
     input := tokenInput;
     output_sourceName := "contracts/Token.sol";
     output_contractName := "Token";
     output_abi := "[]";
     output_deployedBytecode := "6080604053" |}.

Definition changedProject : Scenario :=
  scenario false ["0.8.19"; "0.8.20"] changedBuild [tokenFile] [].

Definition mainnet : Environment :=
  {| config_etherscan_apiKey := "KEY";
     config_etherscan_customChains := [];
     config_solidity := "0.8.19";
     network_name := "mainnet";
     network_provider := "https://rpc.example" |}.

Definition tokenAddress : string := "0x5FbDB2315678afecb367f032d93F642f64180aa3".

Definition tokenArgs (contract : option string) : VerifyTaskArgs :=
  {| ta_address := Some tokenAddress;
     ta_constructorArgsParams := [];
     ta_constructorArgs := None;
     ta_libraries := LibrariesUndefined;
     ta_contract := contract;
     ta_listNetworks := false |}.




Definition verifyNames : TaskNames :=
  {| NAME_VERIFY_ETHERSCAN := "verify:etherscan";
     NAME_VERIFY_SOURCIFY := "verify:sourcify";
     NAME_VERIFY_SOURCIFY_DISABLED_WARNING := "verify:sourcify-disabled-warning" |}.

Definition etherscanOnly : VerifyConfig :=
  {| config_etherscan_enabled := true;
     config_sourcify_enabled := false;
     userConfig_sourcify_enabled := None |}.

(** A task registry: the Etherscan subtask under its name, and a notice for
    any other name. *)
Definition registry (name : string) (taskArgs : VerifyTaskArgs)
  : M Event Scenario unit :=
  if String.eqb name "verify:etherscan"
  then TASK_VERIFY_ETHERSCAN mainnet taskArgs
  else emit (ConsoleLog "[INFO] Sourcify Verification Skipped").

(** The first request of a trace that goes to the chain or the explorer. *)
Definition first_network_request (t : list Event) : option Event :=
  head (List.filter is_network_request t).

(** * How far a run of [TASK_VERIFY_ETHERSCAN] has come *)

Section Progress.
Context {W : Type} {C : Collaborators W}.
Variable hre : Environment.
Variables (taskArgs : VerifyTaskArgs) (w : W).

Definition chain_config_request : Event :=
  GetCurrentChainConfig (network_name hre) (network_provider hre)
    (config_etherscan_customChains hre).

Definition bytecode_request (address : string) : Event :=
  GetDeployedContractBytecode address (network_provider hre) (network_name hre).

Definition encode_request
    (args : VerificationArgs) (contractInformation : ExtendedContractInformation)
  : Event :=
  EncodeArguments
    (contractOutput_abi contractInformation)
    (sourceName contractInformation)
    (contractName contractInformation)
    (va_constructorArgs args).

(** Lines 103-122: the arguments are resolved and the explorer's client is
    built from the chain configuration. *)
Inductive reaches_registry_check
  : VerificationArgs -> Etherscan -> W -> list Event -> Prop :=
| at_registry_check args w1 t1 chainConfig w2 :
    TASK_VERIFY_ETHERSCAN_RESOLVE_ARGUMENTS taskArgs w = (Resolved args, w1, t1) ->
    getCurrentChainConfig (network_name hre) (network_provider hre)
      (config_etherscan_customChains hre) w1 = (inl chainConfig, w2) ->
    reaches_registry_check args
      (fromChainConfig (config_etherscan_apiKey hre) chainConfig) w2
      (t1 ++ [chain_config_request]).

(** Lines 124-142: the address is not verified yet, the configured
    compiler versions are known and the deployed bytecode is fetched. *)
Inductive reaches_version_check
  : VerificationArgs -> Etherscan -> list string -> Bytecode ->
    W -> list Event -> Prop :=
| at_version_check args etherscan w2 t2 w3 configCompilerVersions w4
    deployedBytecode w5 :
    reaches_registry_check args etherscan w2 t2 ->
    isVerified etherscan (va_address args) w2 = (inl false, w3) ->
    getCompilerVersions (config_solidity hre) w3
      = (inl configCompilerVersions, w4) ->
    getDeployedContractBytecode (va_address args) (network_provider hre)
      (network_name hre) w4 = (inl deployedBytecode, w5) ->
    reaches_version_check args etherscan configCompilerVersions
      deployedBytecode w5
      (t2 ++ [IsVerified etherscan (va_address args);
              GetCompilerVersions (config_solidity hre);
              bytecode_request (va_address args)]).

(** Lines 144-160: the version check has passed and the contract
    information is resolved. *)
Inductive reaches_reduction
  : VerificationArgs -> Etherscan -> ExtendedContractInformation ->
    W -> list Event -> Prop :=
| at_reduction args etherscan configCompilerVersions deployedBytecode w5 t5
    contractInformation w6 t6 :
    reaches_version_check args etherscan configCompilerVersions
      deployedBytecode w5 t5 ->
    Nat.eqb (length (getMatchingVersions deployedBytecode configCompilerVersions)) 0
      && negb (isOvm deployedBytecode) = false ->
    TASK_VERIFY_ETHERSCAN_GET_CONTRACT_INFORMATION hre
      (va_contractFQN args) deployedBytecode
      (getMatchingVersions deployedBytecode configCompilerVersions)
      (va_libraries args) w5 = (Resolved contractInformation, w6, t6) ->
    reaches_reduction args etherscan contractInformation w6 (t5 ++ t6).

(** Lines 162-174: the minimal input is built and the constructor
    arguments are encoded; the next step is the first submission. *)
Inductive reaches_submission
  : VerificationArgs -> Etherscan -> ExtendedContractInformation ->
    CompilerInput -> string -> W -> list Event -> Prop :=
| at_submission args etherscan contractInformation w6 t6 minimalInput w7 t7
    encodedConstructorArguments w8 :
    reaches_reduction args etherscan contractInformation w6 t6 ->
    TASK_VERIFY_ETHERSCAN_GET_MINIMAL_INPUT (sourceName contractInformation) w6
      = (Resolved minimalInput, w7, t7) ->
    encodeArguments
      (contractOutput_abi contractInformation)
      (sourceName contractInformation)
      (contractName contractInformation)
      (va_constructorArgs args) w7 = (inl encodedConstructorArguments, w8) ->
    reaches_submission args etherscan contractInformation minimalInput
      encodedConstructorArguments w8
      (t6 ++ t7 ++ [encode_request args contractInformation]).
End Progress.

(** The [Verify] event of an attempt. *)
Definition submission_of `{Collaborators W}
    (address : string) (compilerInput : CompilerInput)
    (contractInformation : ExtendedContractInformation)
    (verificationInterface : Etherscan) (encodedConstructorArguments : string)
  : Event :=
  Verify verificationInterface address
    (JSON_stringify (set_libraries (libraries contractInformation) compilerInput))
    (sourceName contractInformation +:+ ":" +:+ contractName contractInformation)
    ("v" +:+ solcLongVersion contractInformation)
    encodedConstructorArguments.

(** An attempt reports failure: it resolves with [success: false]. *)
Definition reports_failure {W : Type}
    (r : Outcome VerificationResponse * W * list Event) : bool :=
  match outcome r with
  | Resolved response => negb (success response)
  | _ => false
  end.

(** An outcome with its value dropped, as in a function that returns
    nothing after an awaited call. *)
Definition discard {A} (r : Outcome A) : Outcome unit :=
  match r with
  | Resolved _ => Resolved tt
  | Rejected e => Rejected e
  | Exited code => Exited code
  end.

Definition is_versions_mismatch (e : Error) : bool :=
  match e with CompilerVersionsMismatchError _ _ _ => true | _ => false end.

(** * Vocabulary for the further properties *)

Definition is_library_load (ev : Event) : bool :=
  match ev with ResolveLibraries _ => true | _ => false end.

Definition is_inference (ev : Event) : bool :=
  match ev with ExtractInferredContractInformation _ _ => true | _ => false end.

Definition is_artifact_lookup (ev : Event) : bool :=
  match ev with ArtifactExists _ | GetBuildInfo _ => true | _ => false end.

Definition is_verification_failure (e : Error) : bool :=
  match e with ContractVerificationFailedError _ _ => true | _ => false end.

(** The exchange with the block explorer during verification, stripped of
    everything else: submissions, pauses and status checks. *)
Inductive ProtocolStep :=
| Submit
| Pause (ms : N)
| Poll.

Definition protocol_step (ev : Event) : option ProtocolStep :=
  match ev with
  | Verify _ _ _ _ _ _ => Some Submit
  | Sleep ms => Some (Pause ms)
  | GetVerificationStatus _ _ => Some Poll
  | _ => None
  end.

Definition protocol (t : list Event) : list ProtocolStep :=
  omap protocol_step t.

(** Two full rounds: the minimal input, then the full input. *)
Definition two_rounds : list ProtocolStep :=
  [Submit; Pause 700; Poll; Submit; Pause 700; Poll].

(** [m] takes no part in the exchange with the explorer, does not end the
    process and does not report a failed verification. *)
Definition quiet {W A : Type} (m : M Event W A) : Prop :=
  forall w,
    protocol (trace (m w)) = []
    /\ match outcome (m w) with
       | Resolved _ => True
       | Rejected e => is_verification_failure e = false
       | Exited _ => False
       end.

Definition is_write (ev : FsEvent) : bool :=
  match ev with WriteJSON _ _ => true | _ => false end.

(** The three paths of the ledger cache. *)
Definition cache_dir `{FileSystem W} : string := paths_cache (envPaths "hardhat").
Definition ledger_dir `{FileSystem W} : string := path_join cache_dir "ledger".
Definition ledger_file `{FileSystem W} : string :=
  path_join ledger_dir CACHE_FILE_NAME.

(** An event of the cache stays within those paths. *)
Definition within_cache `{FileSystem W} (ev : FsEvent) : Prop :=
  match ev with
  | EnsureDir dir => dir = cache_dir \/ dir = ledger_dir
  | Access file | ReadJSON file | WriteJSON file _ => file = ledger_file
  end.


(** * Stepping through a task *)

Section Stepping.
Context {E W : Type}.

Lemma after_nil {A} (r : Outcome A * W * list E) : after [] r = r.
Proof. by destruct r as [[??]?]. Qed.

Lemma after_after {A} t1 t2 (r : Outcome A * W * list E) :
  after t1 (after t2 r) = after (t1 ++ t2) r.
Proof. unfold after; simpl. by rewrite app_assoc. Qed.

Lemma outcome_after {A} t (r : Outcome A * W * list E) :
  outcome (after t r) = outcome r.
Proof. done. Qed.

Lemma trace_after {A} t (r : Outcome A * W * list E) :
  trace (after t r) = t ++ trace r.
Proof. done. Qed.

Lemma bind_resolved {A B} (m : M E W A) (k : A -> M E W B) w a w1 t1 :
  m w = (Resolved a, w1, t1) -> bind m k w = after t1 (k a w1).
Proof. unfold bind, after. intros ->. by destruct (k a w1) as [[??]?]. Qed.

Lemma bind_rejected {A B} (m : M E W A) (k : A -> M E W B) w e w1 t1 :
  m w = (Rejected e, w1, t1) -> bind m k w = (Rejected e, w1, t1).
Proof. unfold bind. by intros ->. Qed.

Lemma bind_exited {A B} (m : M E W A) (k : A -> M E W B) w c w1 t1 :
  m w = (Exited c, w1, t1) -> bind m k w = (Exited c, w1, t1).
Proof. unfold bind. by intros ->. Qed.

Lemma bind_emit {B} (ev : E) (k : unit -> M E W B) w :
  bind (emit ev) k w = after [ev] (k tt w).
Proof. by apply bind_resolved. Qed.

Lemma bind_ret {A B} (a : A) (k : A -> M E W B) w :
  bind (ret a) k w = k a w.
Proof. erewrite bind_resolved by reflexivity. apply after_nil. Qed.

Lemma await_resolved {A} (ev : E) (f : W -> Answer A * W) w a w1 :
  f w = (inl a, w1) -> await ev f w = (Resolved a, w1, [ev]).
Proof. unfold await. by intros ->. Qed.

Lemma await_rejected {A} (ev : E) (f : W -> Answer A * W) w x w1 :
  f w = (inr x, w1) -> await ev f w = (Rejected (Thrown x), w1, [ev]).
Proof. unfold await. by intros ->. Qed.

Lemma bind_await {A B} (ev : E) (f : W -> Answer A * W)
    (k : A -> M E W B) w a w1 :
  f w = (inl a, w1) -> bind (await ev f) k w = after [ev] (k a w1).
Proof. intros Hf. eapply bind_resolved, await_resolved, Hf. Qed.

(** The trace of a bind starts with the trace of its first action. *)
Lemma bind_trace_prefix {A B} (m : M E W A) (k : A -> M E W B) w :
  exists rest, trace (bind m k w) = trace (m w) ++ rest.
Proof.
  unfold bind, trace.
  destruct (m w) as [[[a|e|c] w1] t1]; simpl.
  - destruct (k a w1) as [[r w2] t2]; simpl. by exists t2.
  - exists []. by rewrite app_nil_r.
  - exists []. by rewrite app_nil_r.
Qed.

Lemma never_throws_bind {A B} P (m : M E W A) (k : A -> M E W B) :
  never_throws P m -> (forall a, never_throws P (k a)) ->
  never_throws P (bind m k).
Proof.
  intros Hm Hk w e. unfold bind, outcome.
  destruct (m w) as [[[a|e'|c] w1] t1] eqn:Hrun; simpl.
  - specialize (Hk a w1 e). unfold outcome in Hk.
    destruct (k a w1) as [[r w2] t2]; simpl in *. exact Hk.
  - intros [= ->]. apply (Hm w). by rewrite Hrun.
  - discriminate.
Qed.

Lemma never_throws_ret {A} P (a : A) : never_throws P (ret (E:=E) (W:=W) a).
Proof. intros w e. discriminate. Qed.

Lemma never_throws_emit P (ev : E) : never_throws P (emit (W:=W) ev).
Proof. intros w e. discriminate. Qed.

Lemma never_throws_throw {A} (P : Error -> bool) e :
  P e = false -> never_throws P (throw (E:=E) (W:=W) (A:=A) e).
Proof. intros He w e'. unfold throw, outcome; simpl. by intros [= <-]. Qed.

Lemma never_throws_await {A} (P : Error -> bool) (ev : E)
    (f : W -> Answer A * W) :
  (forall x, P (Thrown x) = false) -> never_throws P (await ev f).
Proof.
  intros HP w e. unfold await, outcome.
  destruct (f w) as [[a|x] w1]; simpl; [discriminate|].
  intros [= <-]. apply HP.
Qed.

Lemma never_exits_bind {A B} (m : M E W A) (k : A -> M E W B) :
  never_exits m -> (forall a, never_exits (k a)) -> never_exits (bind m k).
Proof.
  intros Hm Hk w code. unfold bind, outcome.
  destruct (m w) as [[[a|e'|c] w1] t1] eqn:Hrun; simpl.
  - specialize (Hk a w1 code). unfold outcome in Hk.
    destruct (k a w1) as [[r w2] t2]; simpl in *. exact Hk.
  - discriminate.
  - intros [= ->]. apply (Hm w code). by rewrite Hrun.
Qed.

Lemma never_exits_ret {A} (a : A) : never_exits (ret (E:=E) (W:=W) a).
Proof. intros w code. discriminate. Qed.

Lemma never_exits_emit (ev : E) : never_exits (emit (W:=W) ev).
Proof. intros w code. discriminate. Qed.

Lemma never_exits_throw {A} e : never_exits (throw (E:=E) (W:=W) (A:=A) e).
Proof. intros w code. discriminate. Qed.

Lemma never_exits_await {A} (ev : E) (f : W -> Answer A * W) :
  never_exits (await ev f).
Proof.
  intros w code. unfold await, outcome.
  by destruct (f w) as [[a|x] w1].
Qed.

Lemma bind_resolved_inv {A B} (m : M E W A) (k : A -> M E W B) w b w2 t :
  bind m k w = (Resolved b, w2, t) ->
  exists a w1 t1 t2,
    m w = (Resolved a, w1, t1)
    /\ k a w1 = (Resolved b, w2, t2)
    /\ t = t1 ++ t2.
Proof.
  unfold bind. destruct (m w) as [[[a|e|c] w1] t1]; simpl; [|done..].
  destruct (k a w1) as [[r w3] t2] eqn:Hk. intros [= -> -> <-].
  by exists a, w1, t1, t2.
Qed.

Lemma await_resolved_inv {A} (ev : E) (f : W -> Answer A * W) w a w1 t :
  await ev f w = (Resolved a, w1, t) -> f w = (inl a, w1) /\ t = [ev].
Proof. unfold await. destruct (f w) as [[a'|x] w']; by intros [= -> -> <-]. Qed.



Lemma never_throws_check P (f : W -> Answer unit) :
  (forall x, P (Thrown x) = false) -> never_throws P (check (E:=E) f).
Proof.
  intros HP w e. unfold check, outcome.
  destruct (f w) as [[]|x]; simpl; [done|]. by intros [= <-].
Qed.

Lemma never_exits_check (f : W -> Answer unit) : never_exits (check (E:=E) f).
Proof. intros w code. unfold check, outcome. by destruct (f w). Qed.
End Stepping.


(** Solve [never_throws P m] along the structure of [m]. *)
Ltac never_throws :=
  repeat first
    [ apply never_throws_bind; [|intros ?]
    | apply never_throws_ret
    | apply never_throws_emit
    | apply never_throws_await; intros ?; reflexivity
    | apply never_throws_check; intros ?; reflexivity
    | apply never_throws_throw; reflexivity
    | match goal with
      | |- never_throws _ (match ?x with _ => _ end) => destruct x
      | |- never_throws _ (if ?x then _ else _) => destruct x
      end ].

Ltac never_exits :=
  repeat first
    [ apply never_exits_bind; [|intros ?]
    | apply never_exits_ret
    | apply never_exits_emit
    | apply never_exits_await
    | apply never_exits_check
    | apply never_exits_throw
    | match goal with
      | |- never_exits (match ?x with _ => _ end) => destruct x
      | |- never_exits (if ?x then _ else _) => destruct x
      end ].

(** * The verification attempt *)

Section AttemptProperties.
Context {W : Type} {C : Collaborators W}.
Variables (address : string) (compilerInput : CompilerInput)
          (contractInformation : ExtendedContractInformation)
          (verificationInterface : Etherscan)
          (encodedConstructorArguments : string).

Local Abbreviation attempt :=
  (TASK_VERIFY_ETHERSCAN_ATTEMPT_VERIFICATION
     address compilerInput contractInformation verificationInterface
     encodedConstructorArguments).

Local Abbreviation submission :=
  (submission_of address compilerInput contractInformation
     verificationInterface encodedConstructorArguments).

(** The events of one attempt: the submission, and unless it is refused,
    the notice, the pause and one status check, and after a success the
    closing notice. *)
Lemma attempt_trace (w : W) :
  trace (attempt w) = [submission]
  \/ exists guid rest,
      trace (attempt w) =
        submission
        :: ConsoleLog (submitted_message contractInformation address)
        :: Sleep 700
        :: GetVerificationStatus verificationInterface guid
        :: rest
      /\ Forall (fun ev => exists text, ev = ConsoleLog text) rest.
Proof.
  unfold TASK_VERIFY_ETHERSCAN_ATTEMPT_VERIFICATION, submission_of.
  unfold bind, await, emit, throw, ret.
  destruct (verify _ _ _ _ _ _ w) as [[response|x] w1]; simpl; [|by left].
  right. exists (response_message response).
  destruct (getVerificationStatus _ _ w1) as [[status|x] w2]; simpl.
  - destruct (isFailure status), (isSuccess status); simpl;
      eexists; (split; [reflexivity|]); repeat constructor; by eexists.
  - exists []. by split.
Qed.

(** C5: when the polled status is neither a recognized failure nor a
    recognized success, the attempt throws
    VerificationAPIUnexpectedMessageError with the service message; the
    status was asked for once, nothing is submitted again, and the attempt
    does not resolve. *)
Theorem unexpected_status_is_thrown
    (w w1 w2 : W) (response verificationStatus : EtherscanResponse) :
  verify verificationInterface address
    (JSON_stringify (set_libraries (libraries contractInformation) compilerInput))
    (sourceName contractInformation +:+ ":" +:+ contractName contractInformation)
    ("v" +:+ solcLongVersion contractInformation)
    encodedConstructorArguments w = (inl response, w1) ->
  getVerificationStatus verificationInterface (response_message response) w1
    = (inl verificationStatus, w2) ->
  isFailure verificationStatus = false ->
  isSuccess verificationStatus = false ->
  attempt w =
    (Rejected (VerificationAPIUnexpectedMessageError
                 (response_message verificationStatus)),
     w2,
     [submission;
      ConsoleLog (submitted_message contractInformation address);
      Sleep 700;
      GetVerificationStatus verificationInterface (response_message response)]).
Proof.
  intros Hsubmit Hpoll Hfailure Hsuccess.
  unfold TASK_VERIFY_ETHERSCAN_ATTEMPT_VERIFICATION, submission_of.
  unfold bind, await, emit, throw, ret.
  rewrite Hsubmit; simpl. rewrite Hpoll; simpl.
  rewrite Hfailure, Hsuccess; simpl. reflexivity.
Qed.

(** C6: in every attempt, whatever precedes a status check ends with the
    pause of 700 milliseconds, which itself comes after the submission. *)
Theorem pause_precedes_status_check
    (w : W) (before after : list Event) (ev : Event) :
  trace (attempt w) = before ++ ev :: after ->
  is_status_check ev = true ->
  exists earlier,
    before = earlier ++ [Sleep 700]
    /\ Exists (fun e => is_submission e = true) earlier
    /\ Forall (fun e => is_status_check e = false) earlier.
Proof.
  intros Htrace Hcheck.
  destruct (attempt_trace w) as [Hshort|(guid & rest & Hlong & Hrest)].
  - rewrite Hshort in Htrace.
    destruct before as [|e [|e' before]]; by simplify_eq/=.
  - rewrite Hlong in Htrace.
    destruct before as [|e0 [|e1 [|e2 [|e3 before]]]]; simplify_eq/=.
    + eexists [_; _]. split; [reflexivity|]. split.
      * by apply Exists_cons_hd.
      * by repeat constructor.
    + exfalso.
      rewrite Forall_forall in Hrest.
      destruct (Hrest ev) as [text ->]; [set_solver|discriminate].
Qed.
End AttemptProperties.

(** * The workflow up to the submission *)

Ltac step :=
  first [ erewrite bind_resolved by eassumption
        | erewrite bind_await by eassumption
        | rewrite bind_emit
        | rewrite bind_ret ];
  cbn beta zeta.

Ltac unfold_subtasks :=
  unfold TASK_VERIFY_ETHERSCAN_RESOLVE_ARGUMENTS,
    TASK_VERIFY_ETHERSCAN_GET_CONTRACT_INFORMATION,
    TASK_VERIFY_ETHERSCAN_GET_MINIMAL_INPUT,
    TASK_VERIFY_ETHERSCAN_ATTEMPT_VERIFICATION,
    addParam, addOptionalParam_inputFile.

Section WorkflowProperties.
Context {W : Type} {C : Collaborators W}.
Variable hre : Environment.

Lemma trace_await {A} (ev : Event) (f : W -> Answer A * W) w :
  trace (await ev f w) = [ev].
Proof. unfold await, trace. by destruct (f w) as [[?|?] ?]. Qed.

Lemma filter_none {A} (p : A -> bool) (l : list A) :
  Forall (fun x => p x = false) l -> List.filter p l = [].
Proof. induction 1 as [|x l Hx _ IH]; simpl; [done|]. by rewrite Hx. Qed.

(** Resolving the arguments reads modules at most. *)
Lemma resolve_arguments_offline taskArgs (w : W) :
  Forall (fun ev => is_network_request ev = false)
    (trace (TASK_VERIFY_ETHERSCAN_RESOLVE_ARGUMENTS taskArgs w)).
Proof.
  unfold_subtasks. unfold bind, check, await, throw, ret, trace.
  repeat case_match; simplify_eq/=; repeat constructor.
Qed.

(** A parameter that was passed goes through. *)
Lemma bind_addParam {A B} name (a : A) (k : unit -> M Event W B) (w : W) :
  bind (addParam name (Some a)) k w = k tt w.
Proof. unfold addParam, bind, ret. by destruct (k tt w) as [[??]?]. Qed.

(** Arguments are only resolved for an address that was passed. *)
Lemma resolved_arguments_have_address taskArgs (w : W) args w1 t1 :
  TASK_VERIFY_ETHERSCAN_RESOLVE_ARGUMENTS taskArgs w = (Resolved args, w1, t1) ->
  ta_address taskArgs = Some (va_address args).
Proof.
  unfold_subtasks. unfold bind, check, await, throw, ret. cbv zeta.
  repeat case_match; intros; simplify_eq/=; done.
Qed.

(** Enter the action of [TASK_VERIFY_ETHERSCAN] in a run whose arguments
    were resolved: the address was passed. *)
Ltac enter_action :=
  unfold TASK_VERIFY_ETHERSCAN;
  match goal with
  | H : TASK_VERIFY_ETHERSCAN_RESOLVE_ARGUMENTS _ _ = (Resolved _, _, _) |- _ =>
      rewrite (resolved_arguments_have_address _ _ _ _ _ H), bind_addParam
  end.



(** C8, as the code has it: the chain configuration is requested through
    the provider before the registry is asked; that is the only network
    request ahead of [isVerified], which comes next; and when the address
    is already verified the run ends there, with the notice and nothing
    else: no bytecode fetch, no contract resolution, no submission. *)
Theorem registry_check_follows_chain_config
    (taskArgs : VerifyTaskArgs) (w : W)
    (args : VerificationArgs) (etherscan : Etherscan) (w2 : W)
    (t2 : list Event) :
  reaches_registry_check hre taskArgs w args etherscan w2 t2 ->
  List.filter is_network_request t2 = [chain_config_request hre]
  /\ (exists rest,
        trace (TASK_VERIFY_ETHERSCAN hre taskArgs w)
          = t2 ++ IsVerified etherscan (va_address args) :: rest)
  /\ (forall w3,
        isVerified etherscan (va_address args) w2 = (inl true, w3) ->
        TASK_VERIFY_ETHERSCAN hre taskArgs w
          = (Resolved tt, w3,
             t2 ++ [IsVerified etherscan (va_address args);
                    ConsoleLog
                      (already_verified_message (va_address args)
                         (getContractUrl etherscan (va_address args)))])).
Proof.
  intros Hreach. inversion Hreach as [? w1 t1 chainConfig ? Hargs Hchain];
    subst; clear Hreach.
  split; [|split].
  - rewrite List.filter_app, filter_none; [done|].
    pose proof (resolve_arguments_offline taskArgs w) as Hoff.
    by rewrite Hargs in Hoff.
  - enter_action. do 2 step.
    rewrite after_after, trace_after.
    match goal with
    | |- context [trace (bind ?m ?k ?w)] =>
        destruct (bind_trace_prefix m k w) as [rest ->]
    end.
    rewrite trace_await. by exists rest.
  - intros w3 Hverified. enter_action. do 3 step.
    rewrite !after_after. unfold emit, after; simpl.
    by rewrite <- !app_assoc.
Qed.

(** Follow a run to the point a progress hypothesis describes. *)
Ltac arrive :=
  repeat match goal with
    | H : reaches_submission _ _ _ _ _ _ _ _ _ _ |- _ =>
        inversion H; subst; clear H
    | H : reaches_reduction _ _ _ _ _ _ _ _ |- _ =>
        inversion H; subst; clear H
    | H : reaches_version_check _ _ _ _ _ _ _ _ _ |- _ =>
        inversion H; subst; clear H
    | H : reaches_registry_check _ _ _ _ _ _ _ |- _ =>
        inversion H; subst; clear H
    end;
  enter_action;
  repeat first
    [ step; cbn iota
    | match goal with
      | H : ?c = false |- context [if ?c then _ else _] => rewrite H
      end ];
  rewrite ?after_after.

Lemma contract_information_no_mismatch contractFQN bytecode versions libs :
  never_throws is_versions_mismatch
    (TASK_VERIFY_ETHERSCAN_GET_CONTRACT_INFORMATION hre
       contractFQN bytecode versions libs).
Proof. unfold_subtasks. never_throws. Qed.

Lemma minimal_input_no_mismatch name :
  never_throws is_versions_mismatch
    (TASK_VERIFY_ETHERSCAN_GET_MINIMAL_INPUT (W:=W) name).
Proof. unfold_subtasks. never_throws. Qed.

Lemma attempt_no_mismatch address input ci etherscan enc :
  never_throws is_versions_mismatch
    (TASK_VERIFY_ETHERSCAN_ATTEMPT_VERIFICATION (W:=W)
       address input ci etherscan enc).
Proof. unfold_subtasks. never_throws. Qed.

(** C3: once the deployed bytecode is fetched, the run throws
    CompilerVersionsMismatchError exactly when no configured compiler
    version matches and the bytecode is not OVM bytecode; the error
    carries the configured versions, the version read from the bytecode
    and the network, and nothing further is requested.  With OVM bytecode
    the run goes on to resolve the contract, whatever the matching set. *)
Theorem versions_mismatch_exactly
    (taskArgs : VerifyTaskArgs) (w : W)
    (args : VerificationArgs) (etherscan : Etherscan)
    (configCompilerVersions : list string) (deployedBytecode : Bytecode)
    (w5 : W) (t5 : list Event) :
  reaches_version_check hre taskArgs w args etherscan
    configCompilerVersions deployedBytecode w5 t5 ->
  let run := TASK_VERIFY_ETHERSCAN hre taskArgs w in
  let matchingCompilerVersions :=
    getMatchingVersions deployedBytecode configCompilerVersions in
  ((exists e, outcome run = Rejected e /\ is_versions_mismatch e = true)
     <-> matchingCompilerVersions = [] /\ isOvm deployedBytecode = false)
  /\ (matchingCompilerVersions = [] -> isOvm deployedBytecode = false ->
      run = (Rejected (CompilerVersionsMismatchError
                         configCompilerVersions
                         (getVersion deployedBytecode)
                         (network_name hre)), w5, t5))
  /\ (isOvm deployedBytecode = true ->
      exists rest,
        trace run =
          t5 ++ trace (TASK_VERIFY_ETHERSCAN_GET_CONTRACT_INFORMATION hre
                         (va_contractFQN args) deployedBytecode
                         matchingCompilerVersions (va_libraries args) w5)
             ++ rest).
Proof.
  intros Hreach run matching. subst run matching.
  assert (Hfatal :
    getMatchingVersions deployedBytecode configCompilerVersions = [] ->
    isOvm deployedBytecode = false ->
    TASK_VERIFY_ETHERSCAN hre taskArgs w
      = (Rejected (CompilerVersionsMismatchError
                     configCompilerVersions
                     (getVersion deployedBytecode)
                     (network_name hre)), w5, t5)).
  { intros Hnone Hovm. arrive. rewrite Hnone, Hovm; simpl.
    unfold throw, after; simpl. by rewrite app_nil_r, <- !app_assoc. }
  split; [split|split; [exact Hfatal|]].
  - intros (e & Hout & He).
    destruct (getMatchingVersions deployedBytecode configCompilerVersions)
      as [|v vs] eqn:Hmatching;
      destruct (isOvm deployedBytecode) eqn:Hovm; [exfalso|done|exfalso..].
    all: revert Hout; arrive; rewrite ?Hmatching, ?Hovm; simpl;
      rewrite outcome_after; intros Hout;
      match type of Hout with
      | outcome (?m ?w) = _ =>
          assert (never_throws is_versions_mismatch m) as Hnever;
          [|specialize (Hnever _ _ Hout); congruence]
      end.
    all: apply never_throws_bind;
      [apply contract_information_no_mismatch|intros ?];
      apply never_throws_bind;
      [apply minimal_input_no_mismatch|intros ?];
      apply never_throws_bind;
      [apply never_throws_await; by intros ?|intros ?];
      apply never_throws_bind;
      [apply attempt_no_mismatch|intros ?];
      case_match; [apply never_throws_ret|];
      apply never_throws_bind; [apply never_throws_emit|intros ?];
      apply never_throws_bind; [apply attempt_no_mismatch|intros ?];
      case_match; [apply never_throws_ret|by apply never_throws_throw].
  - intros [Hnone Hovm]. rewrite (Hfatal Hnone Hovm). by eexists.
  - intros Hovm. arrive. rewrite Hovm, andb_false_r.
    rewrite trace_after.
    match goal with
    | |- context [trace (bind ?m ?k ?w)] =>
        destruct (bind_trace_prefix m k w) as [rest ->]
    end.
    exists rest. by rewrite <- !app_assoc.
Qed.

(** The Etherscan subtask settles: it never ends the process. *)
Lemma etherscan_never_exits taskArgs :
  never_exits (TASK_VERIFY_ETHERSCAN (W:=W) hre taskArgs).
Proof. unfold TASK_VERIFY_ETHERSCAN. unfold_subtasks. never_exits. Qed.

Lemma attempt_submits_once address input ci etherscan enc (w : W) :
  List.filter is_submission
    (trace (TASK_VERIFY_ETHERSCAN_ATTEMPT_VERIFICATION
              address input ci etherscan enc w))
  = [submission_of address input ci etherscan enc].
Proof.
  unfold_subtasks. unfold bind, await, emit, throw, ret, trace, submission_of.
  repeat case_match; simplify_eq/=; reflexivity.
Qed.

(** C1: a run that reaches submission first attempts verification with
    the minimal input.  Unless that attempt reports failure, the run ends
    with it: resolved after a success, rejected with the attempt's own
    error otherwise.  If it reports failure, the notice is printed and
    one attempt with the full compiler input follows; a success resolves
    the run, a second reported failure rejects it with
    ContractVerificationFailedError carrying the message of that last
    attempt and the undetectable libraries.  The submissions of the run are
    the minimal one, followed by the full one exactly when the first
    attempt reported failure. *)
Theorem minimal_then_full
    (taskArgs : VerifyTaskArgs) (w : W)
    (args : VerificationArgs) (etherscan : Etherscan)
    (contractInformation : ExtendedContractInformation)
    (minimalInput : CompilerInput) (encodedConstructorArguments : string)
    (w0 : W) (t0 : list Event) :
  reaches_submission hre taskArgs w args etherscan contractInformation
    minimalInput encodedConstructorArguments w0 t0 ->
  let first :=
    TASK_VERIFY_ETHERSCAN_ATTEMPT_VERIFICATION (va_address args)
      minimalInput contractInformation etherscan
      encodedConstructorArguments w0 in
  let second :=
    TASK_VERIFY_ETHERSCAN_ATTEMPT_VERIFICATION (va_address args)
      (compilerInput contractInformation) contractInformation etherscan
      encodedConstructorArguments (world first) in
  let run := TASK_VERIFY_ETHERSCAN hre taskArgs w in
  (reports_failure first = false ->
   run = (discard (outcome first), world first, t0 ++ trace first))
  /\ (reports_failure first = true ->
      run =
        (match outcome second with
         | Resolved response =>
             if success response then Resolved tt
             else Rejected (ContractVerificationFailedError
                              (message response)
                              (undetectableLibraries contractInformation))
         | Rejected e => Rejected e
         | Exited code => Exited code
         end,
         world second,
         t0 ++ trace first
            ++ ConsoleLog (fallback_message contractInformation)
            :: trace second))
  /\ (exists t,
        trace run = t0 ++ t
        /\ List.filter is_submission t =
             submission_of (va_address args) minimalInput
               contractInformation etherscan encodedConstructorArguments
             :: (if reports_failure first
                 then [submission_of (va_address args)
                         (compilerInput contractInformation)
                         contractInformation etherscan
                         encodedConstructorArguments]
                 else [])).
Proof.
  intros Hreach first second run.
  assert (Hquiet :
    reports_failure first = false ->
    run = (discard (outcome first), world first, t0 ++ trace first)).
  { subst run second. intros Hquiet. arrive.
    unfold reports_failure in Hquiet. subst first.
    unfold bind at 1. unfold outcome, world, trace in *.
    destruct (TASK_VERIFY_ETHERSCAN_ATTEMPT_VERIFICATION _ _ _ _ _ _)
      as [[[response|e|code] wa] ta]; simpl in *.
    - destruct (success response); [|done]. unfold ret, after; simpl.
      by rewrite app_nil_r, <- !app_assoc.
    - unfold after; simpl. by rewrite <- !app_assoc.
    - unfold after; simpl. by rewrite <- !app_assoc. }
  assert (Hloud :
    reports_failure first = true ->
    run =
      (match outcome second with
       | Resolved response =>
           if success response then Resolved tt
           else Rejected (ContractVerificationFailedError
                            (message response)
                            (undetectableLibraries contractInformation))
       | Rejected e => Rejected e
       | Exited code => Exited code
       end,
       world second,
       t0 ++ trace first
          ++ ConsoleLog (fallback_message contractInformation)
          :: trace second)).
  { clear Hquiet. subst run second. intros Hloud. arrive.
    unfold reports_failure in Hloud. subst first.
    unfold bind at 1. unfold outcome, world, trace in *.
    destruct (TASK_VERIFY_ETHERSCAN_ATTEMPT_VERIFICATION _ minimalInput _ _ _ _)
      as [[[response|e|code] wa] ta]; simpl in *; try done.
    destruct (success response); [done|]. simpl.
    rewrite bind_emit. unfold bind at 1.
    destruct (TASK_VERIFY_ETHERSCAN_ATTEMPT_VERIFICATION _ _ _ _ _ wa)
      as [[[response2|e|code] wb] tb]; simpl.
    - destruct (success response2); unfold ret, throw, after; simpl;
        by rewrite ?app_nil_r, <- !app_assoc.
    - unfold after; simpl. by rewrite <- !app_assoc.
    - unfold after; simpl. by rewrite <- !app_assoc. }
  split; [exact Hquiet|split; [exact Hloud|]].
  destruct (reports_failure first) eqn:Hfirst.
  - rewrite (Hloud eq_refl). eexists. split; [reflexivity|].
    rewrite List.filter_app. simpl. subst first second.
    by rewrite !attempt_submits_once.
  - rewrite (Hquiet eq_refl). eexists. split; [reflexivity|].
    subst first. by rewrite attempt_submits_once.
Qed.

Lemma resolve_arguments_submits_nothing taskArgs (w : W) :
  List.filter is_submission
    (trace (TASK_VERIFY_ETHERSCAN_RESOLVE_ARGUMENTS taskArgs w)) = [].
Proof.
  unfold_subtasks. unfold bind, check, await, throw, ret, trace.
  repeat case_match; simplify_eq/=; reflexivity.
Qed.

Lemma contract_information_submits_nothing fqn bytecode versions libs (w : W) :
  List.filter is_submission
    (trace (TASK_VERIFY_ETHERSCAN_GET_CONTRACT_INFORMATION hre
              fqn bytecode versions libs w)) = [].
Proof.
  unfold_subtasks. unfold bind, await, throw, ret, trace.
  repeat case_match; simplify_eq/=; reflexivity.
Qed.

Lemma minimal_input_submits_nothing name (w : W) :
  List.filter is_submission
    (trace (TASK_VERIFY_ETHERSCAN_GET_MINIMAL_INPUT name w)) = [].
Proof.
  unfold_subtasks. unfold bind, await, throw, ret, trace.
  repeat case_match; simplify_eq/=; reflexivity.
Qed.

Lemma nothing_submitted_before_reduction taskArgs w args etherscan ci w6 t6 :
  reaches_reduction hre taskArgs w args etherscan ci w6 t6 ->
  List.filter is_submission t6 = [].
Proof.
  intros Hreach.
  inversion Hreach as [? ? ? ? ? ? ? ? ? Hcheck _ Hinfo]; subst.
  inversion Hcheck as [? ? ? ? ? ? ? ? ? Hregistry _ _ _]; subst.
  inversion Hregistry as [? ? ? ? ? Hargs _]; subst.
  pose proof (resolve_arguments_submits_nothing taskArgs w) as H1.
  match type of Hinfo with
  | TASK_VERIFY_ETHERSCAN_GET_CONTRACT_INFORMATION _ ?a ?b ?c ?d ?w' = _ =>
      pose proof (contract_information_submits_nothing a b c d w') as H2
  end.
  rewrite Hargs in H1. rewrite Hinfo in H2. unfold trace in *; simpl in *.
  by rewrite !List.filter_app, H1, H2.
Qed.

(** C2, as the code has it: the reducer does report failure.  With the
    dependency graph in hand it throws UnexpectedNumberOfFilesError unless
    the graph holds exactly one resolved file of the given source name;
    with exactly one, and the compile tasks answering, it returns a deep
    copy of the compiler input they build for that file's compilation job.
    A failure of the reducer ends the run with that error before anything
    is submitted: no fallback to the full input follows it. *)
Theorem minimal_input_or_error :
  (forall (sourceName : string) (w : W) dependencyGraph w1,
      getDependencyGraph [sourceName] w = (inl dependencyGraph, w1) ->
      let resolvedFiles :=
        filter (fun resolvedFile => file_sourceName resolvedFile = sourceName)
               (getResolvedFiles dependencyGraph) in
      (length resolvedFiles <> 1 ->
       TASK_VERIFY_ETHERSCAN_GET_MINIMAL_INPUT sourceName w
         = (Rejected UnexpectedNumberOfFilesError, w1,
            [GetDependencyGraph [sourceName]]))
      /\ (forall file compilationJob w2 minimalInput w3,
            resolvedFiles = [file] ->
            getCompilationJobForFile dependencyGraph file w1
              = (inl compilationJob, w2) ->
            getCompilerInput compilationJob w2 = (inl minimalInput, w3) ->
            TASK_VERIFY_ETHERSCAN_GET_MINIMAL_INPUT sourceName w
              = (Resolved (cloneDeep minimalInput), w3,
                 [GetDependencyGraph [sourceName];
                  GetCompilationJobForFile dependencyGraph file;
                  GetCompilerInput compilationJob])))
  /\ (forall taskArgs (w : W) args etherscan contractInformation w6 t6 e w7 t7,
        reaches_reduction hre taskArgs w args etherscan contractInformation
          w6 t6 ->
        TASK_VERIFY_ETHERSCAN_GET_MINIMAL_INPUT
          (sourceName contractInformation) w6 = (Rejected e, w7, t7) ->
        TASK_VERIFY_ETHERSCAN hre taskArgs w = (Rejected e, w7, t6 ++ t7)
        /\ List.filter is_submission (t6 ++ t7) = []).
Proof.
  split.
  - intros name w graph w1 Hgraph resolvedFiles. split.
    + intros Hlength. unfold_subtasks.
      erewrite bind_await by exact Hgraph. cbn beta zeta.
      fold resolvedFiles.
      destruct resolvedFiles as [|file [|file' files]]; try done.
    + intros file job w2 input w3 Hfiles Hjob Hinput. unfold_subtasks.
      erewrite bind_await by exact Hgraph. cbn beta zeta.
      fold resolvedFiles. rewrite Hfiles.
      erewrite bind_await by exact Hjob.
      erewrite bind_await by exact Hinput.
      reflexivity.
  - intros taskArgs w args etherscan ci w6 t6 e w7 t7 Hreach Hreducer.
    split.
    + pose proof Hreach as Hkeep. arrive.
      erewrite bind_rejected by eassumption.
      unfold after; simpl. by rewrite <- !app_assoc.
    + rewrite List.filter_app.
      rewrite (nothing_submitted_before_reduction _ _ _ _ _ _ _ Hreach).
      pose proof (minimal_input_submits_nothing (sourceName ci) w6) as H7.
      rewrite Hreducer in H7. exact H7.
Qed.

(** C4: in named mode the checks come in this order.  No artifact for the
    name: ContractNotFoundError, whatever the rest.  An artifact without
    build info: BuildInfoNotFoundError.  A build info whose compiler
    version is not among the matching versions, the bytecode not being
    OVM bytecode: BuildInfoCompilerVersionMismatchError.  That check
    passed and the normalized compiled bytecode differing from the
    deployed normalized bytecode: DeployedBytecodeMismatchError. *)
Theorem named_mode_checks_in_order
    (contractFQN : string) (deployedBytecode : Bytecode)
    (matchingCompilerVersions : list string) (libraries : LibraryToAddress)
    (w : W) :
  let run :=
    TASK_VERIFY_ETHERSCAN_GET_CONTRACT_INFORMATION hre (Some contractFQN)
      deployedBytecode matchingCompilerVersions libraries w in
  (forall w1,
      artifactExists contractFQN w = (inl false, w1) ->
      run = (Rejected (ContractNotFoundError contractFQN), w1,
             [ArtifactExists contractFQN]))
  /\ (forall w1 w2,
        artifactExists contractFQN w = (inl true, w1) ->
        getBuildInfo contractFQN w1 = (inl None, w2) ->
        run = (Rejected (BuildInfoNotFoundError contractFQN), w2,
               [ArtifactExists contractFQN; GetBuildInfo contractFQN]))
  /\ (forall w1 w2 buildInfo,
        artifactExists contractFQN w = (inl true, w1) ->
        getBuildInfo contractFQN w1 = (inl (Some buildInfo), w2) ->
        includes matchingCompilerVersions (solcVersion buildInfo) = false ->
        isOvm deployedBytecode = false ->
        run = (Rejected (BuildInfoCompilerVersionMismatchError
                           contractFQN
                           (getVersion deployedBytecode)
                           (hasVersionRange deployedBytecode)
                           (solcVersion buildInfo)
                           (network_name hre)), w2,
               [ArtifactExists contractFQN; GetBuildInfo contractFQN]))
  /\ (forall w1 w2 buildInfo,
        artifactExists contractFQN w = (inl true, w1) ->
        getBuildInfo contractFQN w1 = (inl (Some buildInfo), w2) ->
        includes matchingCompilerVersions (solcVersion buildInfo) = true
          \/ isOvm deployedBytecode = true ->
        normalize (output_deployedBytecode buildInfo)
          <> normalized deployedBytecode ->
        run = (Rejected (DeployedBytecodeMismatchError
                           (network_name hre) contractFQN), w2,
               [ArtifactExists contractFQN; GetBuildInfo contractFQN])).
Proof.
  intros run. subst run. unfold_subtasks.
  split; [|split; [|split]].
  - intros w1 Hexists. erewrite bind_rejected; [reflexivity|].
    erewrite bind_await by exact Hexists. reflexivity.
  - intros w1 w2 Hexists Hinfo. erewrite bind_rejected; [reflexivity|].
    erewrite bind_await by exact Hexists. cbn.
    erewrite bind_await by exact Hinfo. reflexivity.
  - intros w1 w2 buildInfo Hexists Hinfo Hversion Hovm.
    erewrite bind_rejected; [reflexivity|].
    erewrite bind_await by exact Hexists. cbn.
    erewrite bind_await by exact Hinfo. cbn.
    by rewrite Hversion, Hovm.
  - intros w1 w2 buildInfo Hexists Hinfo Hversion Hdiffer.
    erewrite bind_rejected; [reflexivity|].
    erewrite bind_await by exact Hexists. cbn.
    erewrite bind_await by exact Hinfo. cbn.
    replace (negb (includes matchingCompilerVersions (solcVersion buildInfo))
             && negb (isOvm deployedBytecode)) with false
      by (destruct Hversion as [-> | ->]; by rewrite ?andb_false_r).
    unfold extractMatchingContractInformation.
    apply String.eqb_neq in Hdiffer. by rewrite Hdiffer.
Qed.
End WorkflowProperties.

(** * The [verify] meta-task *)

Section IndexProperties.
Context {W : Type}.
Variable names : TaskNames.
Variable hre : Environment.
Variable config : VerifyConfig.
Variable run : string -> VerifyTaskArgs -> M Event W unit.


(** The loop agrees with running each subtask once, in order. *)
Lemma for_of_runs_each_once taskArgs verificationSubtasks :
  subtasks_settle run taskArgs ->
  forall errors hasErrors (w : W),
    for_of_verificationSubtasks run taskArgs verificationSubtasks
      errors hasErrors w
    = (Resolved
         (collected_errors
            (run_each_once run taskArgs verificationSubtasks w).1.1 errors,
          hasErrors
          || existsb threw
               (run_each_once run taskArgs verificationSubtasks w).1.1),
       (run_each_once run taskArgs verificationSubtasks w).1.2,
       (run_each_once run taskArgs verificationSubtasks w).2).
Proof.
  intros Hsettle.
  induction verificationSubtasks as [|name rest IH]; intros errors hasErrors w.
  - simpl. unfold ret. by rewrite orb_false_r.
  - simpl. unfold bind at 1. unfold try_catch, bind, emit, ret.
    pose proof (Hsettle name w) as Hname. unfold outcome in Hname.
    destruct (run name taskArgs w) as [[[[]|e|code] w1] t1]; simpl in *.
    + rewrite IH.
      destruct (run_each_once run taskArgs rest w1) as [[rs w2] t2]; simpl.
      by rewrite app_nil_r.
    + rewrite IH.
      destruct (run_each_once run taskArgs rest w1) as [[rs w2] t2]; simpl.
      by rewrite app_nil_r, orb_true_r.
    + by destruct (Hname code).
Qed.

Lemma run_each_once_names taskArgs verificationSubtasks (w : W) :
  (run_each_once run taskArgs verificationSubtasks w).1.1.*1
    = verificationSubtasks.
Proof.
  revert w. induction verificationSubtasks as [|name rest IH]; intros w.
  - done.
  - simpl. destruct (run name taskArgs w) as [[r w1] t1].
    specialize (IH w1).
    destruct (run_each_once run taskArgs rest w1) as [[rs w2] t2]; simpl in *.
    f_equal. exact IH.
Qed.




End IndexProperties.

(** * The ledger cache *)

Section LedgerCacheProperties.
Context {W : Type} {F : FileSystem W}.

Lemma cache_file_path (w w1 w2 : W) :
  fs_ensureDir (paths_cache (envPaths "hardhat")) w = (inl tt, w1) ->
  fs_ensureDir (path_join (paths_cache (envPaths "hardhat")) "ledger") w1
    = (inl tt, w2) ->
  getLedgerCacheFile CACHE_FILE_NAME w
    = (Resolved
         (path_join (path_join (paths_cache (envPaths "hardhat")) "ledger")
            CACHE_FILE_NAME),
       w2,
       [EnsureDir (paths_cache (envPaths "hardhat"));
        EnsureDir (path_join (paths_cache (envPaths "hardhat")) "ledger")]).
Proof.
  intros Hcache Hledger.
  unfold getLedgerCacheFile, getLedgerCacheDir, getCacheDir, generatePaths.
  unfold bind, await, ret. by rewrite Hcache, Hledger.
Qed.

(** C10, as the code has it: [read] rejects when the cache directory or
    its [ledger] subdirectory cannot be set up, with the error of
    [fs.ensureDir].  With both in place it resolves: with [undefined] when
    the cache file cannot be accessed or cannot be read as JSON, and with
    the parsed contents otherwise. *)
Theorem read_swallows_file_errors_only (w : W) :
  let cache := paths_cache (envPaths "hardhat") in
  let ledger := path_join cache "ledger" in
  let ledgerCacheFile := path_join ledger CACHE_FILE_NAME in
  (forall x w1,
      fs_ensureDir cache w = (inr x, w1) ->
      read w = (Rejected (Thrown x), w1, [EnsureDir cache]))
  /\ (forall w1 x w2,
        fs_ensureDir cache w = (inl tt, w1) ->
        fs_ensureDir ledger w1 = (inr x, w2) ->
        read w = (Rejected (Thrown x), w2, [EnsureDir cache; EnsureDir ledger]))
  /\ (forall w1 w2,
        fs_ensureDir cache w = (inl tt, w1) ->
        fs_ensureDir ledger w1 = (inl tt, w2) ->
        (exists value, outcome (read w) = Resolved value)
        /\ (forall x w3,
              fs_access ledgerCacheFile w2 = (inr x, w3) ->
              read w = (Resolved None, w3,
                        [EnsureDir cache; EnsureDir ledger;
                         Access ledgerCacheFile]))
        /\ (forall w3 x w4,
              fs_access ledgerCacheFile w2 = (inl tt, w3) ->
              fs_readJSON ledgerCacheFile w3 = (inr x, w4) ->
              read w = (Resolved None, w4,
                        [EnsureDir cache; EnsureDir ledger;
                         Access ledgerCacheFile; ReadJSON ledgerCacheFile]))
        /\ (forall w3 file w4,
              fs_access ledgerCacheFile w2 = (inl tt, w3) ->
              fs_readJSON ledgerCacheFile w3 = (inl file, w4) ->
              read w = (Resolved (Some file), w4,
                        [EnsureDir cache; EnsureDir ledger;
                         Access ledgerCacheFile; ReadJSON ledgerCacheFile]))).
Proof.
  intros cache ledger file. split; [|split].
  - intros x w1 Hcache. unfold read. erewrite bind_rejected; [done|].
    unfold getLedgerCacheFile, getLedgerCacheDir, getCacheDir, generatePaths.
    unfold bind, await, ret. fold cache. by rewrite Hcache.
  - intros w1 x w2 Hcache Hledger. unfold read.
    erewrite bind_rejected; [done|].
    unfold getLedgerCacheFile, getLedgerCacheDir, getCacheDir, generatePaths.
    unfold bind, await, ret. fold cache. rewrite Hcache; simpl.
    fold ledger. by rewrite Hledger.
  - intros w1 w2 Hcache Hledger.
    assert (Hread :
      read w = after [EnsureDir cache; EnsureDir ledger]
        (try_catch
           (do* await (Access file) (fs_access file) in
            let* json := await (ReadJSON file) (fs_readJSON file) in
            ret (Some json))
           (fun _ => ret None) w2)).
    { unfold read.
      by erewrite bind_resolved by (eapply cache_file_path; eassumption). }
    rewrite Hread. unfold try_catch, bind, await, ret, after, outcome.
    split; [|split; [|split]].
    + destruct (fs_access file w2) as [[[]|x] w3]; simpl; [|by eexists].
      destruct (fs_readJSON file w3) as [[json|x] w4]; simpl; by eexists.
    + by intros x w3 ->.
    + by intros w3 x w4 -> ->.
    + by intros w3 json w4 -> ->.
Qed.
End LedgerCacheProperties.

(** * The theorems at work *)

(** Establish a progress hypothesis in a concrete world by running the
    steps it lists. *)
Ltac reach := repeat first [vm_compute; reflexivity|econstructor].

Lemma minimal_then_full_witness :
  outcome (TASK_VERIFY_ETHERSCAN mainnet (tokenArgs None) (project [fail; fail]))
  = Rejected (ContractVerificationFailedError "Fail - Unable to verify"
                ["contracts/Lib.sol:Lib"]).
Proof.
  edestruct (minimal_then_full mainnet (tokenArgs None) (project [fail; fail]))
    as (_ & Hfallback & _); [reach|].
  rewrite Hfallback; reflexivity.
Defined.

(** C2 as stated fails: with a dependency graph that lacks the contract's
    file the reducer itself throws, the run ends with that error and
    nothing is submitted, the full input included. *)
Lemma reducer_reports_failure :
  outcome (TASK_VERIFY_ETHERSCAN_GET_MINIMAL_INPUT "contracts/Token.sol"
             staleProject)
  = Rejected UnexpectedNumberOfFilesError
  /\ outcome (TASK_VERIFY_ETHERSCAN mainnet (tokenArgs None) staleProject)
     = Rejected UnexpectedNumberOfFilesError
  /\ List.filter is_submission
       (trace (TASK_VERIFY_ETHERSCAN mainnet (tokenArgs None) staleProject))
     = [].
Proof. by vm_compute. Qed.

Lemma minimal_input_or_error_witness :
  outcome (TASK_VERIFY_ETHERSCAN_GET_MINIMAL_INPUT "contracts/Token.sol"
             (project []))
  = Resolved
      {| language := "Solidity";
         sources := [("contracts/Token.sol", "contract Token {}")];
         settings := {| otherSettings := "{}"; settings_libraries := None |} |}.
Proof.
  destruct (minimal_input_or_error (W:=Scenario) mainnet) as [Hreducer _].
  edestruct (Hreducer "contracts/Token.sol" (project [])) as [_ Hone];
    [reflexivity|].
  erewrite Hone; reflexivity.
Defined.

Lemma versions_mismatch_exactly_witness :
  outcome (TASK_VERIFY_ETHERSCAN mainnet (tokenArgs None) upgradedProject)
  = Rejected (CompilerVersionsMismatchError ["0.8.20"] "0.8.19" "mainnet").
Proof.
  edestruct (versions_mismatch_exactly mainnet (tokenArgs None) upgradedProject)
    as (_ & Hfatal & _); [reach|].
  rewrite Hfatal; reflexivity.
Defined.

Lemma named_mode_checks_in_order_witness :
  outcome (TASK_VERIFY_ETHERSCAN_GET_CONTRACT_INFORMATION mainnet
             (Some "contracts/Token.sol:Token") tokenBytecode ["0.8.19"] []
             changedProject)
  = Rejected (DeployedBytecodeMismatchError "mainnet"
                "contracts/Token.sol:Token").
Proof.
  destruct (named_mode_checks_in_order mainnet "contracts/Token.sol:Token"
              tokenBytecode ["0.8.19"] [] changedProject)
    as (_ & _ & _ & Hmismatch).
  erewrite Hmismatch;
    [reflexivity|reflexivity|reflexivity|left; reflexivity|discriminate].
Defined.

Lemma unexpected_status_is_thrown_witness :
  outcome (TASK_VERIFY_ETHERSCAN_ATTEMPT_VERIFICATION tokenAddress tokenInput
             tokenExtended explorer "" (project [unknown]))
  = Rejected (VerificationAPIUnexpectedMessageError "Unknown response").
Proof.
  erewrite (unexpected_status_is_thrown tokenAddress tokenInput tokenExtended
              explorer "" (project [unknown]))
    by reflexivity.
  reflexivity.
Defined.

Lemma pause_precedes_status_check_witness :
  exists earlier,
    take 3 (trace (TASK_VERIFY_ETHERSCAN_ATTEMPT_VERIFICATION tokenAddress
                     tokenInput tokenExtended explorer "" (project [pass])))
    = earlier ++ [Sleep 700]
    /\ Exists (fun e => is_submission e = true) earlier
    /\ Forall (fun e => is_status_check e = false) earlier.
Proof.
  eapply (pause_precedes_status_check tokenAddress tokenInput tokenExtended
            explorer "" (project [pass]) _ _
            (GetVerificationStatus explorer "guid"));
    reflexivity.
Defined.



(** C8 as stated fails: the first request that leaves the machine asks the
    provider for the chain configuration, not the explorer's registry. *)
Lemma chain_config_requested_first :
  first_network_request
    (trace (TASK_VERIFY_ETHERSCAN mainnet (tokenArgs None) verifiedProject))
  = Some (GetCurrentChainConfig "mainnet" "https://rpc.example" []).
Proof. reflexivity. Qed.

Lemma registry_check_follows_chain_config_witness :
  outcome (TASK_VERIFY_ETHERSCAN mainnet (tokenArgs None) verifiedProject)
  = Resolved tt
  /\ List.filter is_network_request
       (trace (TASK_VERIFY_ETHERSCAN mainnet (tokenArgs None) verifiedProject))
     = [GetCurrentChainConfig "mainnet" "https://rpc.example" [];
        IsVerified explorer tokenAddress].
Proof.
  edestruct (registry_check_follows_chain_config mainnet (tokenArgs None)
               verifiedProject) as (_ & _ & Hdone); [reach|].
  erewrite Hdone by reflexivity. split; reflexivity.
Defined.


(** C10 as stated fails: when the path of the cache directory is taken by
    a regular file, [fs.ensureDir] rejects outside the [try] block and so
    does [read]. *)
Lemma read_rejects_without_cache_dir :
  outcome (read disk_blocked) = Rejected (Thrown "EEXIST: file already exists").
Proof. by vm_compute. Qed.

Lemma read_swallows_file_errors_only_witness :
  outcome (read disk_cached) = Resolved (Some accounts).
Proof.
  destruct (read_swallows_file_errors_only disk_cached) as (_ & _ & Hpath).
  edestruct Hpath as (_ & _ & _ & Hcontents); [reflexivity..|].
  erewrite Hcontents; reflexivity.
Defined.

(** * Further properties of the Etherscan subtasks *)

Section SubtaskProperties.
Context {W : Type} {C : Collaborators W}.
Variable hre : Environment.

(** X1: arguments that come out of the resolution are valid: the address is
    the one given and is well-formed, the contract name is the one given
    and, when present, fully qualified, and the constructor arguments are
    what [resolveConstructorArguments] answered for the given parameters
    and module. *)
Theorem resolved_arguments_are_valid
    (taskArgs : VerifyTaskArgs) (w : W)
    (args : VerificationArgs) (w' : W) (t : list Event) :
  TASK_VERIFY_ETHERSCAN_RESOLVE_ARGUMENTS taskArgs w = (Resolved args, w', t) ->
  ta_address taskArgs = Some (va_address args)
  /\ isAddress (va_address args) = true
  /\ va_contractFQN args = ta_contract taskArgs
  /\ (forall contract,
        va_contractFQN args = Some contract ->
        isFullyQualifiedName contract = true)
  /\ (exists w1,
        resolveConstructorArguments (ta_constructorArgsParams taskArgs)
          (ta_constructorArgs taskArgs) w
        = (inl (va_constructorArgs args), w1)).
Proof.
  unfold TASK_VERIFY_ETHERSCAN_RESOLVE_ARGUMENTS, addOptionalParam_inputFile,
    bind, check, await, throw, ret.
  cbv zeta. intros Hrun.
  repeat case_match; simplify_eq/=;
    split_and!; try done;
    try (by apply negb_false_iff);
    try (by intros ? [= <-]; apply negb_false_iff);
    by eexists.
Qed.

(** X2: libraries given as an object are used as they are, and no module
    is loaded for them; libraries given as a module path, or not given,
    are resolved by one call of [resolveLibraries], made after the
    constructor arguments are resolved, and what it answers is used. *)
Theorem libraries_object_is_used_as_given (taskArgs : VerifyTaskArgs) (w : W) :
  (forall libraries,
      ta_libraries taskArgs = LibrariesObject libraries ->
      Forall (fun ev => is_library_load ev = false)
        (trace (TASK_VERIFY_ETHERSCAN_RESOLVE_ARGUMENTS taskArgs w))
      /\ (forall args w' t,
            TASK_VERIFY_ETHERSCAN_RESOLVE_ARGUMENTS taskArgs w
              = (Resolved args, w', t) ->
            va_libraries args = libraries))
  /\ (forall args w' t,
        (forall libraries, ta_libraries taskArgs <> LibrariesObject libraries) ->
        TASK_VERIFY_ETHERSCAN_RESOLVE_ARGUMENTS taskArgs w
          = (Resolved args, w', t) ->
        let librariesModule :=
          match ta_libraries taskArgs with
          | LibrariesModule path => Some path
          | _ => None
          end in
        t = [ResolveConstructorArguments (ta_constructorArgsParams taskArgs)
               (ta_constructorArgs taskArgs);
             ResolveLibraries librariesModule]
        /\ exists w1,
             resolveLibraries librariesModule w1 = (inl (va_libraries args), w')).
Proof.
  unfold TASK_VERIFY_ETHERSCAN_RESOLVE_ARGUMENTS, addOptionalParam_inputFile,
    bind, check, await, throw, ret, trace.
  split.
  - intros libraries ->. split.
    + repeat case_match; simplify_eq/=; repeat constructor.
    + intros args w' t Hrun. by repeat case_match; simplify_eq/=.
  - intros args w' t Hmodule.
    destruct (ta_libraries taskArgs) as [|path|libraries];
      [| |by destruct (Hmodule libraries)];
      intros Hrun; repeat case_match; simplify_eq/=;
      (split; [done|by eexists]).
Qed.

(** X3: a named contract skips automatic detection, and detection does not
    consult the artifacts store for a name: in named mode
    [extractInferredContractInformation] is never called and the artifact's
    existence is asked first; in inferred mode the first call is the
    detection and neither [artifactExists] nor [getBuildInfo] is called. *)
Theorem named_mode_skips_detection
    (deployedBytecode : Bytecode) (matchingCompilerVersions : list string)
    (libraries : LibraryToAddress) (w : W) :
  (forall contractFQN,
      let named :=
        TASK_VERIFY_ETHERSCAN_GET_CONTRACT_INFORMATION hre (Some contractFQN)
          deployedBytecode matchingCompilerVersions libraries w in
      head (trace named) = Some (ArtifactExists contractFQN)
      /\ Forall (fun ev => is_inference ev = false) (trace named))
  /\ (let inferred :=
        TASK_VERIFY_ETHERSCAN_GET_CONTRACT_INFORMATION hre None
          deployedBytecode matchingCompilerVersions libraries w in
      head (trace inferred)
        = Some (ExtractInferredContractInformation
                  matchingCompilerVersions deployedBytecode)
      /\ Forall (fun ev => is_artifact_lookup ev = false) (trace inferred)).
Proof.
  unfold TASK_VERIFY_ETHERSCAN_GET_CONTRACT_INFORMATION.
  unfold bind, await, throw, ret, trace. split.
  - intros contractFQN.
    split; repeat case_match; simplify_eq/=; repeat constructor.
  - split; repeat case_match; simplify_eq/=; repeat constructor.
Qed.

(** X4: every failure of contract resolution has its cause, and the
    subtask throws of its own only when a contract name was given.  With a
    name, a rejected run is one of: ContractNotFoundError for that name,
    when the artifacts store has no such artifact;
    BuildInfoNotFoundError, when the artifact exists and has no build info;
    BuildInfoCompilerVersionMismatchError, when the bytecode is not OVM
    bytecode and the build's compiler version is not among the matching
    versions, carrying the bytecode's version, its range flag, the build's
    version and the network; DeployedBytecodeMismatchError, when the
    version check passed and no matching contract information was extracted
    from the build; or the exception of [artifactExists], [getBuildInfo] or
    [getLibraryInformation], handed on as it is.  Without a name the subtask
    throws nothing itself: a rejected run hands on the exception of
    [extractInferredContractInformation] or of [getLibraryInformation],
    whatever its class. *)
Theorem resolution_errors_have_their_cause
    (deployedBytecode : Bytecode) (matchingCompilerVersions : list string)
    (libraries : LibraryToAddress) (w : W) :
  (forall name e,
      outcome (TASK_VERIFY_ETHERSCAN_GET_CONTRACT_INFORMATION hre (Some name)
                 deployedBytecode matchingCompilerVersions libraries w)
        = Rejected e ->
      (e = ContractNotFoundError name
       /\ exists w1, artifactExists name w = (inl false, w1))
      \/ (e = BuildInfoNotFoundError name
          /\ exists w1 w2,
               artifactExists name w = (inl true, w1)
               /\ getBuildInfo name w1 = (inl None, w2))
      \/ (exists w1 w2 buildInfo,
            artifactExists name w = (inl true, w1)
            /\ getBuildInfo name w1 = (inl (Some buildInfo), w2)
            /\ ((e = BuildInfoCompilerVersionMismatchError name
                       (getVersion deployedBytecode)
                       (hasVersionRange deployedBytecode)
                       (solcVersion buildInfo)
                       (network_name hre)
                 /\ includes matchingCompilerVersions (solcVersion buildInfo)
                    = false
                 /\ isOvm deployedBytecode = false)
                \/ (includes matchingCompilerVersions (solcVersion buildInfo)
                      = true
                    \/ isOvm deployedBytecode = true)
                   /\ ((e = DeployedBytecodeMismatchError (network_name hre) name
                        /\ extractMatchingContractInformation name buildInfo
                             deployedBytecode = None)
                       \/ exists contractInformation x w3,
                            extractMatchingContractInformation name buildInfo
                              deployedBytecode = Some contractInformation
                            /\ getLibraryInformation contractInformation
                                 libraries w2 = (inr x, w3)
                            /\ e = Thrown x)))
      \/ (exists x w1,
            artifactExists name w = (inr x, w1) /\ e = Thrown x)
      \/ (exists x w1 w2,
            artifactExists name w = (inl true, w1)
            /\ getBuildInfo name w1 = (inr x, w2)
            /\ e = Thrown x))
  /\ (forall e,
        outcome (TASK_VERIFY_ETHERSCAN_GET_CONTRACT_INFORMATION hre None
                   deployedBytecode matchingCompilerVersions libraries w)
          = Rejected e ->
        exists x,
          e = Thrown x
          /\ ((exists w1,
                 extractInferredContractInformation matchingCompilerVersions
                   deployedBytecode w = (inr x, w1))
              \/ exists contractInformation w1 w2,
                   extractInferredContractInformation matchingCompilerVersions
                     deployedBytecode w = (inl contractInformation, w1)
                   /\ getLibraryInformation contractInformation libraries w1
                      = (inr x, w2))).
Proof.
  unfold TASK_VERIFY_ETHERSCAN_GET_CONTRACT_INFORMATION.
  unfold bind, await, throw, ret, outcome.
  split.
  - intros name e.
    destruct (artifactExists name w) as [[[]|x] w1] eqn:Hexists; simpl;
      [|intros [= <-]; left; split; [done|by eexists]
       |intros [= <-]; do 3 right; left; by eexists _, _].
    destruct (getBuildInfo name w1) as [[[buildInfo|]|x] w2] eqn:Hbuild; simpl;
      [|intros [= <-]; right; left; split; [done|by eexists _, _]
       |intros [= <-]; do 4 right; by eexists _, _, _].
    intros Hrun. do 2 right; left. exists w1, w2, buildInfo.
    split; [done|]. split; [done|].
    destruct (includes matchingCompilerVersions (solcVersion buildInfo))
      eqn:Hversion;
      destruct (isOvm deployedBytecode) eqn:Hovm; simpl in Hrun;
      [right; split; [by left|]
      |right; split; [by left|]
      |right; split; [by right|]
      |left; by simplify_eq/=].
    all: destruct (extractMatchingContractInformation name buildInfo
                     deployedBytecode) as [contractInformation|];
      simpl in Hrun; [|left; by simplify_eq/=];
      destruct (getLibraryInformation contractInformation libraries w2)
        as [[libraryInformation|x] w3] eqn:Hlibraries;
      simpl in Hrun; simplify_eq/=;
      right; by eexists _, _, _.
  - intros e.
    destruct (extractInferredContractInformation matchingCompilerVersions
                deployedBytecode w)
      as [[contractInformation|x] w1] eqn:Hinferred; simpl;
      [|intros [= <-]; exists x; split; [done|left; by eexists]].
    destruct (getLibraryInformation contractInformation libraries w1)
      as [[libraryInformation|x] w2] eqn:Hlibraries; simpl; [done|].
    intros [= <-]. exists x. split; [done|]. right. by eexists _, _, _.
Qed.

(** X5: contract information is returned only with its library
    information, and it is the information that was resolved.  With a
    name, a resolved run asked for the artifact and its build info, took the
    contract information extracted from that build, and ended with its only
    call of [getLibraryInformation]; without a name it took what
    [extractInferredContractInformation] answered and ended with that
    call.  The call is made with the libraries the caller passed, in the
    world the resolution left, and the result is the contract information
    merged with what the call answered. *)
Theorem library_information_comes_last
    (contractFQN : option string) (deployedBytecode : Bytecode)
    (matchingCompilerVersions : list string) (libraries : LibraryToAddress)
    (w w' : W) (result : ExtendedContractInformation) (t : list Event) :
  TASK_VERIFY_ETHERSCAN_GET_CONTRACT_INFORMATION hre contractFQN
    deployedBytecode matchingCompilerVersions libraries w
    = (Resolved result, w', t) ->
  exists contractInformation libraryInformation w0,
    match contractFQN with
    | Some name =>
        exists w1 buildInfo,
          artifactExists name w = (inl true, w1)
          /\ getBuildInfo name w1 = (inl (Some buildInfo), w0)
          /\ extractMatchingContractInformation name buildInfo deployedBytecode
             = Some contractInformation
          /\ t = [ArtifactExists name; GetBuildInfo name;
                  GetLibraryInformation contractInformation libraries]
    | None =>
        extractInferredContractInformation matchingCompilerVersions
          deployedBytecode w = (inl contractInformation, w0)
        /\ t = [ExtractInferredContractInformation matchingCompilerVersions
                  deployedBytecode;
                GetLibraryInformation contractInformation libraries]
    end
    /\ getLibraryInformation contractInformation libraries w0
       = (inl libraryInformation, w')
    /\ result = spread contractInformation libraryInformation.
Proof.
  unfold TASK_VERIFY_ETHERSCAN_GET_CONTRACT_INFORMATION.
  unfold bind, await, throw, ret.
  intros Hrun. destruct contractFQN as [name|].
  - destruct (artifactExists name w) as [[[]|x] w1] eqn:Hexists;
      simpl in Hrun; [|done..].
    destruct (getBuildInfo name w1) as [[[buildInfo|]|x] w2] eqn:Hbuild;
      simpl in Hrun; [|done..].
    destruct (negb _ && negb _); simpl in Hrun; [done|].
    destruct (extractMatchingContractInformation name buildInfo
                deployedBytecode) as [contractInformation|] eqn:Hmatch;
      simpl in Hrun; [|done].
    destruct (getLibraryInformation contractInformation libraries w2)
      as [[libraryInformation|x] w3] eqn:Hlibraries;
      simpl in Hrun; simplify_eq/=.
    exists contractInformation, libraryInformation, w2.
    split; [by exists w1, buildInfo|done].
  - destruct (extractInferredContractInformation matchingCompilerVersions
                deployedBytecode w)
      as [[contractInformation|x] w1] eqn:Hinferred; simpl in Hrun; [|done].
    destruct (getLibraryInformation contractInformation libraries w1)
      as [[libraryInformation|x] w2] eqn:Hlibraries;
      simpl in Hrun; simplify_eq/=.
    by exists contractInformation, libraryInformation, w1.
Qed.

(** X6: a recognized status settles the attempt.  When the explorer accepts
    the submission and answers the status check with a failure or a
    success, the attempt resolves with [success] as the status says and
    with the status message; the closing notice with the contract's URL is
    printed exactly on success. *)
Theorem recognized_status_resolves
    (address : string) (compilerInput : CompilerInput)
    (contractInformation : ExtendedContractInformation)
    (verificationInterface : Etherscan) (encodedConstructorArguments : string)
    (w w1 w2 : W) (response verificationStatus : EtherscanResponse) :
  verify verificationInterface address
    (JSON_stringify (set_libraries (libraries contractInformation) compilerInput))
    (sourceName contractInformation +:+ ":" +:+ contractName contractInformation)
    ("v" +:+ solcLongVersion contractInformation)
    encodedConstructorArguments w = (inl response, w1) ->
  getVerificationStatus verificationInterface (response_message response) w1
    = (inl verificationStatus, w2) ->
  isFailure verificationStatus || isSuccess verificationStatus = true ->
  TASK_VERIFY_ETHERSCAN_ATTEMPT_VERIFICATION address compilerInput
    contractInformation verificationInterface encodedConstructorArguments w
  = (Resolved {| success := isSuccess verificationStatus;
                 message := response_message verificationStatus |},
     w2,
     [submission_of address compilerInput contractInformation
        verificationInterface encodedConstructorArguments;
      ConsoleLog (submitted_message contractInformation address);
      Sleep 700;
      GetVerificationStatus verificationInterface (response_message response)]
     ++ (if isSuccess verificationStatus
         then [ConsoleLog
                 (verified_message contractInformation
                    (getContractUrl verificationInterface address))]
         else [])).
Proof.
  intros Hsubmit Hpoll Hknown.
  unfold TASK_VERIFY_ETHERSCAN_ATTEMPT_VERIFICATION, submission_of.
  unfold bind, await, emit, throw, ret.
  rewrite Hsubmit; simpl. rewrite Hpoll; simpl. rewrite Hknown; simpl.
  by destruct (isSuccess verificationStatus).
Qed.

(** X7: an attempt hands on the failures of the explorer's client as they
    are.  A submission that throws ends the attempt at once: no notice, no
    pause, no status check.  A status check that throws ends it after that
    one check. *)
Theorem attempt_hands_on_client_errors
    (address : string) (compilerInput : CompilerInput)
    (contractInformation : ExtendedContractInformation)
    (verificationInterface : Etherscan) (encodedConstructorArguments : string)
    (w : W) :
  let submit :=
    verify verificationInterface address
      (JSON_stringify
         (set_libraries (libraries contractInformation) compilerInput))
      (sourceName contractInformation +:+ ":" +:+
       contractName contractInformation)
      ("v" +:+ solcLongVersion contractInformation)
      encodedConstructorArguments in
  let submission :=
    submission_of address compilerInput contractInformation
      verificationInterface encodedConstructorArguments in
  let run :=
    TASK_VERIFY_ETHERSCAN_ATTEMPT_VERIFICATION address compilerInput
      contractInformation verificationInterface encodedConstructorArguments w in
  (forall x w1,
      submit w = (inr x, w1) ->
      run = (Rejected (Thrown x), w1, [submission]))
  /\ (forall response w1 x w2,
        submit w = (inl response, w1) ->
        getVerificationStatus verificationInterface
          (response_message response) w1 = (inr x, w2) ->
        run = (Rejected (Thrown x), w2,
               [submission;
                ConsoleLog (submitted_message contractInformation address);
                Sleep 700;
                GetVerificationStatus verificationInterface
                  (response_message response)])).
Proof.
  intros submit submission run. subst submit submission run.
  unfold TASK_VERIFY_ETHERSCAN_ATTEMPT_VERIFICATION, submission_of.
  unfold bind, await, emit, throw, ret. split.
  - by intros x w1 ->.
  - intros response w1 x w2 ->; simpl. by intros ->.
Qed.

(** X8: every attempt submits once, and what it submits is the given
    compiler input with its [libraries] setting replaced by the contract's
    linking information, whatever the setting held before; language,
    sources and the other settings are untouched. *)
Theorem attempt_submits_the_linked_input
    (address : string) (compilerInput : CompilerInput)
    (contractInformation : ExtendedContractInformation)
    (verificationInterface : Etherscan) (encodedConstructorArguments : string)
    (w : W) :
  exists submitted,
    List.filter is_submission
      (trace (TASK_VERIFY_ETHERSCAN_ATTEMPT_VERIFICATION address compilerInput
                contractInformation verificationInterface
                encodedConstructorArguments w))
    = [Verify verificationInterface address (JSON_stringify submitted)
         (sourceName contractInformation +:+ ":" +:+
          contractName contractInformation)
         ("v" +:+ solcLongVersion contractInformation)
         encodedConstructorArguments]
    /\ settings_libraries (settings submitted)
       = Some (libraries contractInformation)
    /\ otherSettings (settings submitted) = otherSettings (settings compilerInput)
    /\ language submitted = language compilerInput
    /\ sources submitted = sources compilerInput.
Proof.
  exists (set_libraries (libraries contractInformation) compilerInput).
  split; [|done]. apply attempt_submits_once.
Qed.
End SubtaskProperties.

(** * The whole run of the Etherscan subtask *)

Section QuietSteps.
Context {W : Type}.

Lemma protocol_app (t1 t2 : list Event) :
  protocol (t1 ++ t2) = protocol t1 ++ protocol t2.
Proof. apply omap_app. Qed.

Lemma quiet_bind {A B} (m : M Event W A) (k : A -> M Event W B) :
  quiet m -> (forall a, quiet (k a)) -> quiet (bind m k).
Proof.
  intros Hm Hk w. specialize (Hm w). unfold bind, outcome, trace in *.
  destruct (m w) as [[[a|e|c] w1] t1]; simpl in *; [|done..].
  specialize (Hk a w1). unfold outcome, trace in Hk.
  destruct (k a w1) as [[r w2] t2]; simpl in *.
  rewrite protocol_app. destruct Hm as [-> _]. exact Hk.
Qed.

Lemma quiet_ret {A} (a : A) : quiet (ret (E:=Event) (W:=W) a).
Proof. by intros w. Qed.

Lemma quiet_throw {A} (e : Error) :
  is_verification_failure e = false ->
  quiet (throw (E:=Event) (W:=W) (A:=A) e).
Proof. by intros He w. Qed.

Lemma quiet_emit (ev : Event) :
  protocol_step ev = None -> quiet (emit (W:=W) ev).
Proof. intros Hev w. unfold emit, protocol, trace; simpl. by rewrite Hev. Qed.

Lemma quiet_await {A} (ev : Event) (f : W -> Answer A * W) :
  protocol_step ev = None -> quiet (await ev f).
Proof.
  intros Hev w. unfold await, protocol, outcome, trace.
  destruct (f w) as [[a|x] w1]; simpl; by rewrite Hev.
Qed.

Lemma quiet_check (f : W -> Answer unit) : quiet (check (E:=Event) f).
Proof. intros w. unfold check, outcome, trace. by destruct (f w). Qed.

(** A property of runs that quiet steps ahead of a run do not disturb and
    that holds of a quiet failure, holds of a run that starts with a quiet
    step if it holds of every continuation. *)
Lemma quiet_prefix {A} (P : Outcome unit * W * list Event -> Prop)
    (m : M Event W A) (k : A -> M Event W unit) (w : W) :
  (forall t r, protocol t = [] -> P r -> P (after t r)) ->
  (forall e w' t,
      protocol t = [] -> is_verification_failure e = false ->
      P (Rejected e, w', t)) ->
  quiet m ->
  (forall a w1, P (k a w1)) ->
  P (bind m k w).
Proof.
  intros Hafter Hfailure Hm Hk. specialize (Hm w).
  unfold bind, outcome, trace in *.
  destruct (m w) as [[[a|e|c] w1] t1]; simpl in *; destruct Hm as [Ht Ho].
  - specialize (Hk a w1). apply (Hafter t1) in Hk; [|done].
    unfold after in Hk. by destruct (k a w1) as [[r w2] t2].
  - by apply Hfailure.
  - done.
Qed.
End QuietSteps.

Ltac quiet :=
  repeat first
    [ apply quiet_bind; [|intros ?]
    | apply quiet_ret
    | apply quiet_emit; reflexivity
    | apply quiet_await; reflexivity
    | apply quiet_check
    | apply quiet_throw; reflexivity
    | match goal with
      | |- quiet (match ?x with _ => _ end) => destruct x
      | |- quiet (if ?x then _ else _) => destruct x
      end ].

Section RunProperties.
Context {W : Type} {C : Collaborators W}.
Variable hre : Environment.

Lemma resolve_arguments_quiet taskArgs :
  quiet (TASK_VERIFY_ETHERSCAN_RESOLVE_ARGUMENTS (W:=W) taskArgs).
Proof. unfold_subtasks. cbv zeta. quiet. Qed.

Lemma contract_information_quiet contractFQN bytecode versions libs :
  quiet (TASK_VERIFY_ETHERSCAN_GET_CONTRACT_INFORMATION (W:=W) hre
           contractFQN bytecode versions libs).
Proof. unfold_subtasks. quiet. Qed.

Lemma minimal_input_quiet name :
  quiet (TASK_VERIFY_ETHERSCAN_GET_MINIMAL_INPUT (W:=W) name).
Proof. unfold_subtasks. quiet. Qed.

(** The two rounds of lines 176-217, for the values the steps before them
    produced. *)
Local Abbreviation rounds address minimalInput contractInformation etherscan
    encodedConstructorArguments :=
  (let* minimalInputVerification :=
     TASK_VERIFY_ETHERSCAN_ATTEMPT_VERIFICATION
       address minimalInput contractInformation etherscan
       encodedConstructorArguments in
   if success minimalInputVerification then ret tt
   else
     do* emit (ConsoleLog (fallback_message contractInformation)) in
     let* fullCompilerInputVerification :=
       TASK_VERIFY_ETHERSCAN_ATTEMPT_VERIFICATION
         address (compilerInput contractInformation) contractInformation
         etherscan encodedConstructorArguments in
     if success fullCompilerInputVerification then ret tt
     else throw (ContractVerificationFailedError
                   (message fullCompilerInputVerification)
                   (undetectableLibraries contractInformation))).

(** Every run of the subtask is an already-verified exit, a quiet failure
    ahead of the first submission, or the two rounds behind quiet steps. *)
Lemma run_by_cases (P : Outcome unit * W * list Event -> Prop) :
  (forall t r, protocol t = [] -> P r -> P (after t r)) ->
  (forall e w t,
      protocol t = [] -> is_verification_failure e = false ->
      P (Rejected e, w, t)) ->
  (forall etherscan address w,
      P (Resolved tt, w,
         [ConsoleLog (already_verified_message address
                        (getContractUrl etherscan address))])) ->
  (forall address minimalInput contractInformation etherscan
          encodedConstructorArguments w,
      P (rounds address minimalInput contractInformation etherscan
           encodedConstructorArguments w)) ->
  forall taskArgs w, P (TASK_VERIFY_ETHERSCAN hre taskArgs w).
Proof.
  intros Hafter Hfailure Hverified Hrounds taskArgs w.
  unfold TASK_VERIFY_ETHERSCAN.
  apply quiet_prefix; [done|done|unfold addParam; quiet|].
  intros _ w0.
  apply quiet_prefix; [done|done|apply resolve_arguments_quiet|].
  intros args w1. cbv zeta.
  apply quiet_prefix; [done|done|by apply quiet_await|].
  intros chainConfig w2.
  apply quiet_prefix; [done|done|by apply quiet_await|].
  intros [] w3; [apply Hverified|].
  apply quiet_prefix; [done|done|by apply quiet_await|].
  intros configCompilerVersions w4.
  apply quiet_prefix; [done|done|by apply quiet_await|].
  intros deployedBytecode w5.
  destruct (_ && _); [by apply Hfailure|].
  apply quiet_prefix; [done|done|apply contract_information_quiet|].
  intros contractInformation w6.
  apply quiet_prefix; [done|done|apply minimal_input_quiet|].
  intros minimalInput w7.
  apply quiet_prefix; [done|done|by apply quiet_await|].
  intros encodedConstructorArguments w8.
  apply Hrounds.
Qed.

(** The five ways an attempt can go. *)
Lemma attempt_cases address input ci etherscan enc (w : W) :
  let run :=
    TASK_VERIFY_ETHERSCAN_ATTEMPT_VERIFICATION address input ci etherscan enc w in
  let opening guid :=
    [submission_of address input ci etherscan enc;
     ConsoleLog (submitted_message ci address);
     Sleep 700;
     GetVerificationStatus etherscan guid] in
  (exists x w1, run = (Rejected (Thrown x), w1,
                       [submission_of address input ci etherscan enc]))
  \/ (exists guid e w2,
        run = (Rejected e, w2, opening guid)
        /\ is_verification_failure e = false)
  \/ (exists guid text w2,
        run = (Resolved {| success := false; message := text |}, w2,
               opening guid))
  \/ (exists guid text w2,
        run = (Resolved {| success := true; message := text |}, w2,
               opening guid
               ++ [ConsoleLog (verified_message ci
                                 (getContractUrl etherscan address))])).
Proof.
  intros run opening. subst run opening.
  unfold TASK_VERIFY_ETHERSCAN_ATTEMPT_VERIFICATION, submission_of.
  unfold bind, await, emit, throw, ret.
  destruct (verify _ _ _ _ _ _ w) as [[response|x] w1]; simpl;
    [|left; by eexists _, _].
  destruct (getVerificationStatus _ _ w1) as [[status|x] w2]; simpl;
    [|right; left; by eexists _, _, _].
  destruct (isFailure status) eqn:Hfailure, (isSuccess status) eqn:Hsuccess;
    simpl.
  - right; right; right. by eexists _, _, _.
  - right; right; left. by eexists _, _, _.
  - right; right; right. by eexists _, _, _.
  - right; left. by eexists _, _, _.
Qed.

Ltac open_round H :=
  first [ erewrite bind_rejected by exact H
        | erewrite bind_resolved by exact H ];
  cbn beta iota delta [success message].

(** X9: the exchange with the explorer in any run, whatever the arguments
    and the outside world, is an initial part of two rounds of submit,
    pause of 700 milliseconds, status check: nothing, a refused first
    submission, one round, one round and a refused second submission, or two
    rounds.  The run is rejected with ContractVerificationFailedError only
    after two full rounds, and it resolves only after no exchange at all or
    after a full round. *)
Theorem at_most_two_rounds (taskArgs : VerifyTaskArgs) (w : W) :
  let run := TASK_VERIFY_ETHERSCAN hre taskArgs w in
  exists n,
    protocol (trace run) = take n two_rounds
    /\ (n = 0 \/ n = 1 \/ n = 3 \/ n = 4 \/ n = 6)
    /\ (forall text libraries,
          outcome run
            = Rejected (ContractVerificationFailedError text libraries) ->
          n = 6)
    /\ (outcome run = Resolved tt -> n = 0 \/ n = 3 \/ n = 6).
Proof.
  cbv zeta. revert taskArgs w.
  apply (run_by_cases
           (fun r =>
              exists n,
                protocol (trace r) = take n two_rounds
                /\ (n = 0 \/ n = 1 \/ n = 3 \/ n = 4 \/ n = 6)
                /\ (forall text libraries,
                      outcome r
                        = Rejected
                            (ContractVerificationFailedError text libraries) ->
                      n = 6)
                /\ (outcome r = Resolved tt -> n = 0 \/ n = 3 \/ n = 6))).
  - intros t r Ht (n & Hn & Hrest). exists n. split; [|exact Hrest].
    rewrite trace_after, protocol_app, Ht. exact Hn.
  - intros e w t Ht He. exists 0. unfold outcome, trace; simpl.
    split_and!; [done|by left| |done].
    intros text libraries [= ->]. done.
  - intros etherscan address w. exists 0. split_and!; [done|by left|done|by left].
  - intros address minimalInput ci etherscan enc w.
    destruct (attempt_cases address minimalInput ci etherscan enc w)
      as [(x & w1 & H1)|[(g & e & w1 & H1 & He)|[(g & text & w1 & H1)
         |(g & text & w1 & H1)]]];
      open_round H1.
    + exists 1. split_and!; [done|naive_solver..].
    + exists 3. split_and!; [done|naive_solver| |done].
      intros ? ? [= ->]. done.
    + rewrite bind_emit.
      destruct (attempt_cases address (compilerInput ci) ci etherscan enc w1)
        as [(x & w2 & H2)|[(g' & e & w2 & H2 & He)|[(g' & text' & w2 & H2)
           |(g' & text' & w2 & H2)]]];
        open_round H2.
      * exists 4. split_and!; [done|naive_solver..].
      * exists 6. split_and!; [done|naive_solver..].
      * exists 6. split_and!; [done|naive_solver..].
      * exists 6. split_and!; [done|naive_solver..].
    + exists 3. split_and!; [done|naive_solver..].
Qed.

(** X10: a run never resolves silently, and what it prints is about this
    contract.  When the subtask resolves, the arguments were resolved for
    the address that was passed and the explorer's client was built from
    the chain configuration that was fetched; and the last thing the run
    did was to print either that this address has already been verified,
    after the explorer said so, or that the contract whose information was
    resolved in this run was successfully verified, each with the URL the
    client gives for this address. *)
Theorem resolves_only_when_verified (taskArgs : VerifyTaskArgs) (w : W) :
  outcome (TASK_VERIFY_ETHERSCAN hre taskArgs w) = Resolved tt ->
  exists args etherscan w2 t2,
    reaches_registry_check hre taskArgs w args etherscan w2 t2
    /\ ta_address taskArgs = Some (va_address args)
    /\ (((exists w3,
            isVerified etherscan (va_address args) w2 = (inl true, w3))
         /\ last (trace (TASK_VERIFY_ETHERSCAN hre taskArgs w))
            = Some (ConsoleLog
                      (already_verified_message (va_address args)
                         (getContractUrl etherscan (va_address args)))))
        \/ exists contractInformation w6 t6,
             reaches_reduction hre taskArgs w args etherscan
               contractInformation w6 t6
             /\ last (trace (TASK_VERIFY_ETHERSCAN hre taskArgs w))
                = Some (ConsoleLog
                          (verified_message contractInformation
                             (getContractUrl etherscan (va_address args))))).
Proof.
  intros Hout.
  destruct (TASK_VERIFY_ETHERSCAN hre taskArgs w) as [[r w'] t] eqn:Hrun.
  unfold outcome in Hout. simpl in Hout. subst r. unfold trace. simpl.
  revert Hrun. unfold TASK_VERIFY_ETHERSCAN.
  destruct (ta_address taskArgs) as [address|] eqn:Haddress; [|done].
  rewrite bind_addParam. intros Hrun.
  apply bind_resolved_inv in Hrun as (args & w1 & t1 & ta & Hargs & Hrun & ->).
  cbv zeta in Hrun.
  apply bind_resolved_inv in Hrun
    as (chainConfig & w2 & ? & tb & Hchain & Hrun & ->).
  apply await_resolved_inv in Hchain as [Hchain ->].
  apply bind_resolved_inv in Hrun
    as (verified & w3 & ? & tc & Hverified & Hrun & ->).
  apply await_resolved_inv in Hverified as [Hverified ->].
  pose proof (resolved_arguments_have_address _ _ _ _ _ Hargs) as Hgiven.
  rewrite Haddress in Hgiven.
  pose proof (at_registry_check hre taskArgs w _ _ _ _ _ Hargs Hchain)
    as Hregistry.
  eexists args, _, w2, _. split; [exact Hregistry|]. split; [exact Hgiven|].
  destruct verified.
  - left. split; [by eexists|].
    unfold emit in Hrun. injection Hrun as <- <-.
    by rewrite !last_app.
  - right.
    apply bind_resolved_inv in Hrun
      as (configCompilerVersions & w4 & ? & td & Hversions & Hrun & ->).
    apply await_resolved_inv in Hversions as [Hversions ->].
    apply bind_resolved_inv in Hrun
      as (deployedBytecode & w5 & ? & te & Hbytecode & Hrun & ->).
    apply await_resolved_inv in Hbytecode as [Hbytecode ->].
    cbv zeta in Hrun.
    destruct (_ && _) eqn:Hcheck in Hrun; [done|].
    apply bind_resolved_inv in Hrun
      as (contractInformation & w6 & t6 & tf & Hinformation & Hrun & ->).
    pose proof (at_reduction hre taskArgs w _ _ _ _ _ _ _ _ _
                  (at_version_check hre taskArgs w _ _ _ _ _ _ _ _ _
                     Hregistry Hverified Hversions Hbytecode)
                  Hcheck Hinformation) as Hreduction.
    eexists contractInformation, w6, _. split; [exact Hreduction|].
    apply bind_resolved_inv in Hrun
      as (minimalInput & w7 & t7 & tg & Hminimal & Hrun & ->).
    apply bind_resolved_inv in Hrun
      as (encoded & w8 & ? & th & Hencoded & Hrun & ->).
    apply await_resolved_inv in Hencoded as [Hencoded ->].
    apply bind_resolved_inv in Hrun
      as (first & w9 & t9 & ti & Hfirst & Hrun & ->).
    destruct (attempt_cases (va_address args) minimalInput contractInformation
                (fromChainConfig (config_etherscan_apiKey hre) chainConfig)
                encoded w8)
      as [(x & wa & H1)|[(g & e & wa & H1 & He)|[(g & text & wa & H1)
         |(g & text & wa & H1)]]];
      rewrite Hfirst in H1; simplify_eq/=.
    + apply bind_resolved_inv in Hrun as ([] & ? & ? & tj & Hnotice & Hrun & ->).
      apply bind_resolved_inv in Hrun
        as (second & w10 & t10 & tk & Hsecond & Hrun & ->).
      destruct (attempt_cases (va_address args)
                  (compilerInput contractInformation) contractInformation
                  (fromChainConfig (config_etherscan_apiKey hre) chainConfig)
                  encoded wa)
        as [(y & wb & H2)|[(g' & e & wb & H2 & He)|[(g' & text' & wb & H2)
           |(g' & text' & wb & H2)]]];
        unfold emit in Hnotice; simplify_eq/=;
        rewrite Hsecond in H2; simplify_eq/=.
      unfold ret in Hrun. simplify_eq/=.
      by repeat first [rewrite last_app|rewrite last_cons].
    + unfold ret in Hrun. simplify_eq/=.
      by repeat first [rewrite last_app|rewrite last_cons].
Qed.
End RunProperties.

(** * Further properties of the [verify] meta-task *)

Section ListingProperties.
Context {W : Type}.
Variable names : TaskNames.
Variable config : VerifyConfig.

(** X11: with three distinct task names, the list of verification
    subtasks follows the configuration: the Etherscan subtask is listed
    exactly when Etherscan is enabled, and then it comes first; the Sourcify
    subtask exactly when Sourcify is enabled; the notice that Sourcify is
    disabled exactly when Sourcify is not enabled and the user did not ask
    for it; nothing is listed twice and at most two subtasks are listed. *)
Theorem subtasks_follow_the_configuration (w : W) :
  NoDup [NAME_VERIFY_ETHERSCAN names; NAME_VERIFY_SOURCIFY names;
         NAME_VERIFY_SOURCIFY_DISABLED_WARNING names] ->
  exists verificationSubtasks t,
    TASK_VERIFY_GET_VERIFICATION_SUBTASKS names config w
      = (Resolved verificationSubtasks, w, t)
    /\ NoDup verificationSubtasks
    /\ length verificationSubtasks <= 2
    /\ (NAME_VERIFY_ETHERSCAN names ∈ verificationSubtasks
        <-> config_etherscan_enabled config = true)
    /\ (NAME_VERIFY_SOURCIFY names ∈ verificationSubtasks
        <-> config_sourcify_enabled config = true)
    /\ (NAME_VERIFY_SOURCIFY_DISABLED_WARNING names ∈ verificationSubtasks
        <-> config_sourcify_enabled config = false
            /\ userConfig_sourcify_enabled config <> Some true)
    /\ (config_etherscan_enabled config = true ->
        head verificationSubtasks = Some (NAME_VERIFY_ETHERSCAN names)).
Proof.
  intros Hdistinct.
  apply NoDup_cons in Hdistinct as [Hes Hdistinct].
  apply NoDup_cons in Hdistinct as [Hsw _].
  assert (NAME_VERIFY_ETHERSCAN names <> NAME_VERIFY_SOURCIFY names)
    by set_solver.
  assert (NAME_VERIFY_ETHERSCAN names
          <> NAME_VERIFY_SOURCIFY_DISABLED_WARNING names) by set_solver.
  assert (NAME_VERIFY_SOURCIFY names
          <> NAME_VERIFY_SOURCIFY_DISABLED_WARNING names) by set_solver.
  unfold TASK_VERIFY_GET_VERIFICATION_SUBTASKS, bind, emit, ret.
  destruct (config_etherscan_enabled config),
    (config_sourcify_enabled config),
    (userConfig_sourcify_enabled config) as [[]|];
    simpl; eexists _, _; (split; [reflexivity|]);
    (split; [repeat constructor; set_solver|]);
    (split; [simpl; lia|]);
    split_and!; try done; set_solver.
Qed.

(** X12: listing the subtasks never fails and leaves the world as it is;
    it prints the warning that no verification service is enabled exactly
    when neither Etherscan nor Sourcify is enabled, and nothing else; so an
    empty list never goes unannounced. *)
Theorem nothing_enabled_is_announced (w : W) :
  exists verificationSubtasks,
    TASK_VERIFY_GET_VERIFICATION_SUBTASKS names config w
      = (Resolved verificationSubtasks, w,
         if negb (config_etherscan_enabled config)
            && negb (config_sourcify_enabled config)
         then [ConsoleWarn no_service_warning]
         else [])
    /\ (verificationSubtasks = [] ->
        config_etherscan_enabled config = false
        /\ config_sourcify_enabled config = false
        /\ trace (TASK_VERIFY_GET_VERIFICATION_SUBTASKS names config w)
           = [ConsoleWarn no_service_warning]).
Proof.
  unfold TASK_VERIFY_GET_VERIFICATION_SUBTASKS, bind, emit, ret, trace.
  destruct (config_etherscan_enabled config),
    (config_sourcify_enabled config),
    (userConfig_sourcify_enabled config) as [[]|];
    simpl; eexists; split; done.
Qed.
End ListingProperties.

Section LoopProperties.
Context {W : Type} {C : Collaborators W}.
Variable names : TaskNames.
Variable hre : Environment.
Variable config : VerifyConfig.

Lemma collected_errors_exact results errors name e :
  NoDup results.*1 ->
  (forall n, n ∈ results.*1 -> errors !! n = None) ->
  collected_errors results errors !! name = Some e
  <-> (name, Rejected e) ∈ results \/ errors !! name = Some e.
Proof.
  revert errors.
  induction results as [|[n r] rs IH]; intros errors Hnodup Hfresh.
  - simpl. set_solver.
  - apply NoDup_cons in Hnodup as [Hn Hnodup]. simpl in Hn.
    assert (Hrs : forall e', (n, Rejected e') ∉ rs).
    { intros e' Hin. apply Hn. apply list_elem_of_fmap.
      by exists (n, Rejected e'). }
    assert (Hnone : errors !! n = None) by (apply Hfresh; set_solver).
    destruct r as [[]|e'|code]; simpl.
    + rewrite IH; [|done|intros; apply Hfresh; set_solver].
      rewrite elem_of_cons. naive_solver.
    + rewrite IH; [|done|].
      * rewrite elem_of_cons.
        destruct (decide (n = name)) as [->|Hne].
        -- rewrite lookup_insert_eq. naive_solver.
        -- rewrite lookup_insert_ne by done. naive_solver.
      * intros m Hm. rewrite lookup_insert_ne by set_solver.
        apply Hfresh. set_solver.
    + rewrite IH; [|done|intros; apply Hfresh; set_solver].
      rewrite elem_of_cons. naive_solver.
Qed.

Lemma collected_errors_size results errors :
  NoDup results.*1 ->
  (forall n, n ∈ results.*1 -> errors !! n = None) ->
  size (collected_errors results errors)
  = size errors + length (List.filter threw results).
Proof.
  revert errors.
  induction results as [|[n r] rs IH]; intros errors Hnodup Hfresh.
  - simpl. lia.
  - apply NoDup_cons in Hnodup as [Hn Hnodup]. simpl in Hn.
    destruct r as [[]|e'|code]; simpl.
    + rewrite IH; [done|done|intros; apply Hfresh; set_solver].
    + rewrite IH; [|done|].
      * rewrite map_size_insert_None by (apply Hfresh; set_solver).
        change (List.filter threw ((n, Rejected e') :: rs))
          with ((n, Rejected e') :: List.filter threw rs).
        simpl. lia.
      * intros m Hm. rewrite lookup_insert_ne by set_solver.
        apply Hfresh. set_solver.
    + rewrite IH; [done|done|intros; apply Hfresh; set_solver].
Qed.

Lemma collected_errors_flag results errors :
  collected_errors results errors = ∅ ->
  errors = ∅ /\ existsb threw results = false.
Proof.
  revert errors.
  induction results as [|[n r] rs IH]; intros errors Hempty; [done|].
  destruct r as [[]|e'|code]; simpl in *; try by apply IH.
  apply IH in Hempty as [Hempty _].
  by apply insert_non_empty in Hempty.
Qed.

(** X13: when the subtasks of the list have distinct names and none ends
    the process, the loop loses no error: the errors it hands on hold
    exactly one entry for each subtask that threw, under that subtask's
    name and with the error it threw.  And whatever the names, the flag
    [hasErrors] is set exactly when that record is not empty. *)
Theorem distinct_subtasks_lose_no_error
    (run : string -> VerifyTaskArgs -> M Event W unit)
    (taskArgs : VerifyTaskArgs) (verificationSubtasks : list string) (w : W) :
  NoDup verificationSubtasks ->
  subtasks_settle run taskArgs ->
  let results := (run_each_once run taskArgs verificationSubtasks w).1.1 in
  exists errors hasErrors w' t,
    for_of_verificationSubtasks run taskArgs verificationSubtasks ∅ false w
      = (Resolved (errors, hasErrors), w', t)
    /\ (forall name e,
          errors !! name = Some e <-> (name, Rejected e) ∈ results)
    /\ size errors = length (List.filter threw results)
    /\ (hasErrors = true <-> errors <> ∅).
Proof.
  intros Hnodup Hsettle results.
  rewrite for_of_runs_each_once by done. fold results.
  eexists _, _, _, _. split; [reflexivity|].
  assert (Hnames : NoDup results.*1)
    by (subst results; by rewrite run_each_once_names).
  split_and!.
  - intros name e. rewrite collected_errors_exact; [|done|done].
    rewrite lookup_empty. naive_solver.
  - rewrite collected_errors_size; [|done|done]. by rewrite map_size_empty.
  - simpl. split.
    + intros Hthrew Hempty.
      apply collected_errors_flag in Hempty as [_ Hnone]. congruence.
    + intros Hnonempty. destruct (existsb threw results) eqn:Hthrew; [done|].
      destruct Hnonempty. clear Hnames.
      assert (Hgen : forall errors,
                 collected_errors results errors = errors).
      { induction results as [|[n [[]|e'|code]] rs IH]; intros errors;
          simpl in *; try done; by apply IH. }
      apply Hgen.
Qed.

End LoopProperties.

(** * Further properties of the ledger cache *)

Section CacheProperties.
Context {W : Type} {F : FileSystem W}.

Lemma read_trace (w : W) :
  trace (read w) = [EnsureDir cache_dir]
  \/ trace (read w) = [EnsureDir cache_dir; EnsureDir ledger_dir]
  \/ trace (read w)
     = [EnsureDir cache_dir; EnsureDir ledger_dir; Access ledger_file]
  \/ trace (read w)
     = [EnsureDir cache_dir; EnsureDir ledger_dir; Access ledger_file;
        ReadJSON ledger_file].
Proof.
  unfold read, getLedgerCacheFile, getLedgerCacheDir, getCacheDir,
    generatePaths.
  unfold try_catch, bind, await, ret, trace.
  destruct (fs_ensureDir _ w) as [[[]|x] w1]; simpl; [|by left].
  destruct (fs_ensureDir _ w1) as [[[]|x] w2]; simpl;
    [|right; by left].
  destruct (fs_access _ w2) as [[[]|x] w3]; simpl;
    [|right; right; by left].
  destruct (fs_readJSON _ w3) as [[file|x] w4]; simpl;
    right; right; by right.
Qed.

Lemma write_trace (json : CacheableJson) (w : W) :
  trace (write json w) = [EnsureDir cache_dir]
  \/ trace (write json w) = [EnsureDir cache_dir; EnsureDir ledger_dir]
  \/ trace (write json w)
     = [EnsureDir cache_dir; EnsureDir ledger_dir;
        WriteJSON ledger_file json].
Proof.
  unfold write, getLedgerCacheFile, getLedgerCacheDir, getCacheDir,
    generatePaths.
  unfold bind, await, ret, trace.
  destruct (fs_ensureDir _ w) as [[[]|x] w1]; simpl; [|by left].
  destruct (fs_ensureDir _ w1) as [[[]|x] w2]; simpl;
    [|right; by left].
  destruct (fs_writeJSON _ json w2) as [[[]|x] w3]; simpl;
    right; by right.
Qed.

(** X15: the cache keeps to three paths.  Reading and writing ensure only
    the cache directory of the [hardhat] package and its [ledger]
    subdirectory, the former first, and access, read or write only
    [accounts.json] inside the latter; reading never writes, and what is
    written is the JSON that was passed. *)
Theorem cache_keeps_to_its_paths (json : CacheableJson) (w : W) :
  Forall within_cache (trace (read w))
  /\ Forall within_cache (trace (write json w))
  /\ Forall (fun ev => is_write ev = false) (trace (read w))
  /\ (forall file written,
        WriteJSON file written ∈ trace (write json w) -> written = json)
  /\ head (trace (read w)) = Some (EnsureDir cache_dir)
  /\ head (trace (write json w)) = Some (EnsureDir cache_dir).
Proof.
  assert (Hc : within_cache (W:=W) (EnsureDir cache_dir)) by (by left).
  assert (Hl : within_cache (W:=W) (EnsureDir ledger_dir)) by (by right).
  assert (Ha : within_cache (W:=W) (Access ledger_file)) by done.
  assert (Hr : within_cache (W:=W) (ReadJSON ledger_file)) by done.
  assert (Hw : within_cache (W:=W) (WriteJSON ledger_file json)) by done.
  destruct (read_trace w) as [-> |[-> |[-> | ->]]];
    destruct (write_trace json w) as [-> |[-> | ->]];
    split_and!; try done;
    try (by repeat apply Forall_cons_2; try apply Forall_nil_2);
    intros file written Hin;
    repeat (apply elem_of_cons in Hin as [Hin|Hin]; [by simplify_eq|]);
    by apply elem_of_nil in Hin.
Qed.

(** X16: unlike reading, writing swallows nothing: a failure to set up
    either directory or to write the file rejects with that failure, and a
    directory failure leaves the file unwritten; the write resolves exactly
    when all three steps succeed. *)
Theorem write_reports_every_failure (json : CacheableJson) (w : W) :
  (forall x w1,
      fs_ensureDir cache_dir w = (inr x, w1) ->
      write json w = (Rejected (Thrown x), w1, [EnsureDir cache_dir]))
  /\ (forall w1 x w2,
        fs_ensureDir cache_dir w = (inl tt, w1) ->
        fs_ensureDir ledger_dir w1 = (inr x, w2) ->
        write json w = (Rejected (Thrown x), w2,
                        [EnsureDir cache_dir; EnsureDir ledger_dir]))
  /\ (forall w1 w2 x w3,
        fs_ensureDir cache_dir w = (inl tt, w1) ->
        fs_ensureDir ledger_dir w1 = (inl tt, w2) ->
        fs_writeJSON ledger_file json w2 = (inr x, w3) ->
        write json w = (Rejected (Thrown x), w3,
                        [EnsureDir cache_dir; EnsureDir ledger_dir;
                         WriteJSON ledger_file json]))
  /\ (outcome (write json w) = Resolved tt
      <-> exists w1 w2 w3,
            fs_ensureDir cache_dir w = (inl tt, w1)
            /\ fs_ensureDir ledger_dir w1 = (inl tt, w2)
            /\ fs_writeJSON ledger_file json w2 = (inl tt, w3)).
Proof.
  unfold write, getLedgerCacheFile, getLedgerCacheDir, getCacheDir,
    generatePaths.
  unfold bind, await, ret, outcome, ledger_file, ledger_dir, cache_dir.
  split_and!.
  - by intros x w1 ->.
  - intros w1 x w2 ->; simpl. by intros ->.
  - intros w1 w2 x w3 ->; simpl. intros ->; simpl. by intros ->.
  - split.
    + destruct (fs_ensureDir _ w) as [[[]|x] w1]; simpl; [|done].
      destruct (fs_ensureDir _ w1) as [[[]|x] w2] eqn:Hledger; simpl;
        [|done].
      destruct (fs_writeJSON _ json w2) as [[[]|x] w3] eqn:Hfile; simpl;
        [|done].
      intros _. by exists w1, w2, w3.
    + by intros (w1 & w2 & w3 & -> & -> & ->).
Qed.
End CacheProperties.


(** * The ledger cache on a disk *)

Lemma cache_paths_distinct :
  cache_dir (W:=Disk) <> ledger_dir
  /\ cache_dir (W:=Disk) <> ledger_file
  /\ ledger_dir (W:=Disk) <> ledger_file.
Proof. by vm_compute. Qed.

Lemma disk_ensureDir_done (dir : string) (d d1 : Disk) :
  disk_ensureDir dir d = (inl tt, d1) ->
  d1 !! dir = Some Directory /\ forall k, k <> dir -> d1 !! k = d !! k.
Proof.
  unfold disk_ensureDir. intros Hrun.
  destruct (d !! dir) as [[|? ?]|] eqn:Hdir; simplify_eq/=.
  - done.
  - split; [apply lookup_insert_eq|].
    intros k Hk. apply lookup_insert_ne. congruence.
Qed.

Lemma disk_ensureDir_present (dir : string) (d : Disk) :
  d !! dir = Some Directory -> disk_ensureDir dir d = (inl tt, d).
Proof. unfold disk_ensureDir. by intros ->. Qed.

Lemma disk_writeJSON_done (file : string) (json : CacheableJson) (d d1 : Disk) :
  disk_writeJSON file json d = (inl tt, d1) ->
  d1 !! file = Some (RegularFile true (Some json))
  /\ forall k, k <> file -> d1 !! k = d !! k.
Proof.
  unfold disk_writeJSON. intros Hrun.
  assert (d1 = <[file := RegularFile true (Some json)]> d) as ->
    by (destruct (d !! file) as [[|[] ?]|]; by simplify_eq/=).
  split; [apply lookup_insert_eq|].
  intros k Hk. apply lookup_insert_ne. congruence.
Qed.

(** Reading a cache that is in place and holds [json]. *)
Lemma read_existing_cache (json : CacheableJson) (d : Disk) :
  d !! cache_dir (W:=Disk) = Some Directory ->
  d !! ledger_dir (W:=Disk) = Some Directory ->
  d !! ledger_file (W:=Disk) = Some (RegularFile true (Some json)) ->
  read d
  = (Resolved (Some json), d,
     [EnsureDir cache_dir; EnsureDir ledger_dir;
      Access ledger_file; ReadJSON ledger_file]).
Proof.
  intros Hc Hl Hf. unfold read.
  erewrite bind_resolved
    by (eapply cache_file_path;
        [exact (disk_ensureDir_present _ _ Hc)
        |exact (disk_ensureDir_present _ _ Hl)]).
  unfold try_catch, bind, await, ret, after.
  change (path_join (path_join (paths_cache (envPaths "hardhat")) "ledger")
            CACHE_FILE_NAME) with (ledger_file (W:=Disk)).
  change (fs_access ledger_file d) with (disk_access ledger_file d).
  unfold disk_access. rewrite Hf. cbn beta iota.
  change (fs_readJSON ledger_file d) with (disk_readJSON ledger_file d).
  unfold disk_readJSON. by rewrite Hf.
Qed.

Lemma written_cache_is_in_place (json : CacheableJson) (d d' : Disk) t :
  write json d = (Resolved tt, d', t) ->
  d' !! cache_dir (W:=Disk) = Some Directory
  /\ d' !! ledger_dir (W:=Disk) = Some Directory
  /\ d' !! ledger_file (W:=Disk) = Some (RegularFile true (Some json)).
Proof.
  destruct cache_paths_distinct as (Hcl & Hcf & Hlf).
  unfold write, getLedgerCacheFile, getLedgerCacheDir, getCacheDir,
    generatePaths, bind, await, ret.
  change (fs_ensureDir (paths_cache (envPaths "hardhat")) d)
    with (disk_ensureDir (cache_dir (W:=Disk)) d).
  destruct (disk_ensureDir cache_dir d) as [[[]|x] d1] eqn:H1; [|done].
  cbn beta iota.
  change (fs_ensureDir (path_join (paths_cache (envPaths "hardhat")) "ledger") d1)
    with (disk_ensureDir (ledger_dir (W:=Disk)) d1).
  destruct (disk_ensureDir ledger_dir d1) as [[[]|x] d2] eqn:H2; [|done].
  cbn beta iota.
  change (fs_writeJSON
            (path_join (path_join (paths_cache (envPaths "hardhat")) "ledger")
               CACHE_FILE_NAME) json d2)
    with (disk_writeJSON (ledger_file (W:=Disk)) json d2).
  destruct (disk_writeJSON ledger_file json d2) as [[[]|x] d3] eqn:H3; [|done].
  intros [= <- _].
  apply disk_ensureDir_done in H1 as [Hc1 _].
  apply disk_ensureDir_done in H2 as [Hl2 Hk2].
  apply disk_writeJSON_done in H3 as [Hf3 Hk3].
  split_and!.
  - rewrite Hk3, Hk2 by done. done.
  - rewrite Hk3 by done. done.
  - done.
Qed.

Lemma write_over_existing_cache (json : CacheableJson) (d : Disk) old :
  d !! cache_dir (W:=Disk) = Some Directory ->
  d !! ledger_dir (W:=Disk) = Some Directory ->
  d !! ledger_file (W:=Disk) = Some (RegularFile true old) ->
  exists d' t, write json d = (Resolved tt, d', t).
Proof.
  intros Hc Hl Hf. unfold write.
  erewrite bind_resolved
    by (eapply cache_file_path;
        [exact (disk_ensureDir_present _ _ Hc)
        |exact (disk_ensureDir_present _ _ Hl)]).
  unfold await, after.
  change (fs_writeJSON ?file json d) with (disk_writeJSON file json d).
  unfold disk_writeJSON.
  change (path_join (path_join (paths_cache (envPaths "hardhat")) "ledger")
            CACHE_FILE_NAME) with (ledger_file (W:=Disk)).
  rewrite Hf. by eexists _, _.
Qed.

(** X17: on a disk, what was written is read back.  After a write that
    succeeded, reading yields the written JSON and leaves the disk as it is;
    and a later write succeeds too, after which the later JSON is read. *)
Theorem written_accounts_are_read_back
    (json : CacheableJson) (d d' : Disk) (t : list FsEvent) :
  write json d = (Resolved tt, d', t) ->
  read d'
  = (Resolved (Some json), d',
     [EnsureDir cache_dir; EnsureDir ledger_dir;
      Access ledger_file; ReadJSON ledger_file])
  /\ forall later,
       exists d2 t2,
         write later d' = (Resolved tt, d2, t2)
         /\ outcome (read d2) = Resolved (Some later).
Proof.
  intros Hrun.
  destruct (written_cache_is_in_place _ _ _ _ Hrun) as (Hc & Hl & Hf).
  split; [by apply read_existing_cache|].
  intros later.
  destruct (write_over_existing_cache later d' _ Hc Hl Hf)
    as (d2 & t2 & Hlater).
  exists d2, t2. split; [done|].
  destruct (written_cache_is_in_place _ _ _ _ Hlater) as (Hc2 & Hl2 & Hf2).
  by rewrite (read_existing_cache later d2).
Qed.

(** * The further properties at work *)

Lemma resolved_arguments_are_valid_witness :
  isAddress (W:=Scenario) tokenAddress = true
  /\ isFullyQualifiedName (W:=Scenario) "contracts/Token.sol:Token" = true.
Proof.
  edestruct (resolved_arguments_are_valid
               (tokenArgs (Some "contracts/Token.sol:Token")) (project []))
    as (_ & Haddress & _ & Hname & _); [vm_compute; reflexivity|].
  split; [exact Haddress|]. by apply Hname.
Defined.

Lemma library_information_comes_last_witness :
  (exists contractInformation libraryInformation w0,
      (exists w1 buildInfo,
          artifactExists "contracts/Token.sol:Token" (project [])
            = (inl true, w1)
          /\ getBuildInfo "contracts/Token.sol:Token" w1
             = (inl (Some buildInfo), w0)
          /\ extractMatchingContractInformation "contracts/Token.sol:Token"
               buildInfo tokenBytecode = Some contractInformation
          /\ [ArtifactExists "contracts/Token.sol:Token";
              GetBuildInfo "contracts/Token.sol:Token";
              GetLibraryInformation tokenInformation []]
             = [ArtifactExists "contracts/Token.sol:Token";
                GetBuildInfo "contracts/Token.sol:Token";
                GetLibraryInformation contractInformation []])
      /\ getLibraryInformation contractInformation [] w0
         = (inl libraryInformation, project [])
      /\ tokenExtended = spread contractInformation libraryInformation)
  /\ (exists contractInformation libraryInformation w0,
        (extractInferredContractInformation ["0.8.19"] tokenBytecode (project [])
           = (inl contractInformation, w0)
         /\ [ExtractInferredContractInformation ["0.8.19"] tokenBytecode;
             GetLibraryInformation tokenInformation []]
            = [ExtractInferredContractInformation ["0.8.19"] tokenBytecode;
               GetLibraryInformation contractInformation []])
        /\ getLibraryInformation contractInformation [] w0
           = (inl libraryInformation, project [])
        /\ tokenExtended = spread contractInformation libraryInformation).
Proof.
  split.
  - apply (library_information_comes_last mainnet
             (Some "contracts/Token.sol:Token") tokenBytecode ["0.8.19"] []
             (project [])).
    by vm_compute.
  - apply (library_information_comes_last mainnet None tokenBytecode
             ["0.8.19"] [] (project [])).
    by vm_compute.
Defined.

Lemma recognized_status_resolves_witness :
  outcome (TASK_VERIFY_ETHERSCAN_ATTEMPT_VERIFICATION tokenAddress tokenInput
             tokenExtended explorer "" (project [pass]))
  = Resolved {| success := true; message := "Pass - Verified" |}.
Proof.
  erewrite (recognized_status_resolves tokenAddress tokenInput tokenExtended
              explorer "" (project [pass]))
    by reflexivity.
  reflexivity.
Defined.

Lemma resolves_only_when_verified_witness :
  exists args etherscan w2 t2,
    reaches_registry_check mainnet (tokenArgs None) (project [pass])
      args etherscan w2 t2
    /\ ta_address (tokenArgs None) = Some (va_address args)
    /\ (((exists w3,
            isVerified etherscan (va_address args) w2 = (inl true, w3))
         /\ last (trace (TASK_VERIFY_ETHERSCAN mainnet (tokenArgs None)
                           (project [pass])))
            = Some (ConsoleLog
                      (already_verified_message (va_address args)
                         (getContractUrl etherscan (va_address args)))))
        \/ exists contractInformation w6 t6,
             reaches_reduction mainnet (tokenArgs None) (project [pass])
               args etherscan contractInformation w6 t6
             /\ last (trace (TASK_VERIFY_ETHERSCAN mainnet (tokenArgs None)
                               (project [pass])))
                = Some (ConsoleLog
                          (verified_message contractInformation
                             (getContractUrl etherscan (va_address args))))).
Proof.
  apply (resolves_only_when_verified mainnet (tokenArgs None) (project [pass])).
  reflexivity.
Defined.

Lemma verifyNames_distinct :
  NoDup [NAME_VERIFY_ETHERSCAN verifyNames; NAME_VERIFY_SOURCIFY verifyNames;
         NAME_VERIFY_SOURCIFY_DISABLED_WARNING verifyNames].
Proof. repeat constructor; set_solver. Defined.

Lemma subtasks_follow_the_configuration_witness :
  exists verificationSubtasks t,
    TASK_VERIFY_GET_VERIFICATION_SUBTASKS verifyNames etherscanOnly (project [])
      = (Resolved verificationSubtasks, project [], t)
    /\ NoDup verificationSubtasks
    /\ length verificationSubtasks <= 2
    /\ (NAME_VERIFY_ETHERSCAN verifyNames ∈ verificationSubtasks
        <-> config_etherscan_enabled etherscanOnly = true)
    /\ (NAME_VERIFY_SOURCIFY verifyNames ∈ verificationSubtasks
        <-> config_sourcify_enabled etherscanOnly = true)
    /\ (NAME_VERIFY_SOURCIFY_DISABLED_WARNING verifyNames ∈ verificationSubtasks
        <-> config_sourcify_enabled etherscanOnly = false
            /\ userConfig_sourcify_enabled etherscanOnly <> Some true)
    /\ (config_etherscan_enabled etherscanOnly = true ->
        head verificationSubtasks = Some (NAME_VERIFY_ETHERSCAN verifyNames)).
Proof.
  apply (subtasks_follow_the_configuration verifyNames etherscanOnly
           (project [])).
  exact verifyNames_distinct.
Defined.

Lemma distinct_subtasks_lose_no_error_witness :
  let subtasks := ["verify:etherscan"; "verify:sourcify-disabled-warning"] in
  let results :=
    (run_each_once registry (tokenArgs None) subtasks (project [fail; fail])).1.1 in
  exists errors hasErrors w' t,
    for_of_verificationSubtasks registry (tokenArgs None) subtasks ∅ false
      (project [fail; fail])
      = (Resolved (errors, hasErrors), w', t)
    /\ (forall name e,
          errors !! name = Some e <-> (name, Rejected e) ∈ results)
    /\ size errors = length (List.filter threw results)
    /\ (hasErrors = true <-> errors <> ∅).
Proof.
  apply (distinct_subtasks_lose_no_error registry (tokenArgs None)
           ["verify:etherscan"; "verify:sourcify-disabled-warning"]
           (project [fail; fail])).
  - repeat constructor; set_solver.
  - intros name w code. unfold registry.
    destruct (String.eqb name "verify:etherscan").
    + apply etherscan_never_exits.
    + discriminate.
Defined.


Lemma written_accounts_are_read_back_witness :
  outcome (read (world (write accounts (∅ : Disk)))) = Resolved (Some accounts).
Proof.
  destruct (write accounts (∅ : Disk)) as [[o d] t] eqn:Hwrite.
  assert (o = Resolved tt) as ->.
  { change o with (outcome (o, d, t)). rewrite <- Hwrite. by vm_compute. }
  destruct (written_accounts_are_read_back accounts ∅ d t Hwrite) as [Hread _].
  unfold world. cbn [fst snd]. by rewrite Hread.
Defined.
